(** * Cloud provider abstraction layer: shallow embedding and verified properties

    The development follows the TypeScript sources of [shared/cloud]:
    - [errors.ts]                     : [CloudProviderError], [wrapProviderOperation]
    - [types.ts]                      : [CloudConfig], [ComputeInstance], ...
    - [cloud-provider.interface.ts]   : [ICloudProvider], [BaseCloudProvider]
    - [aws-provider.ts]               : module [AWSProvider]
    - [azure-provider.ts]             : module [AzureProvider]
    - [cloud-provider.factory.ts]     : module [CloudProviderFactory]
    - [config-loader.ts]              : module [ConfigLoader] (the class
      [ConfigLoader], imported by [scripts/generate-env.ts])

    Vendor SDK clients are external collaborators.  Every SDK invocation is an
    explicit event: the code under study runs in a small monad that records
    the calls it issues and receives each answer (a value or an exception) from
    an arbitrary oracle. *)

From Stdlib Require Import String Ascii List Bool ZArith NArith Arith Lia.
From Stdlib Require Import DecimalString.
Import ListNotations.
Open Scope string_scope.

Set Implicit Arguments.

(* ===================================================================== *)
(** ** JavaScript string helpers *)
(* ===================================================================== *)

Module Js.

(** Truthiness of a string: only the empty string is falsy. *)
Definition truthy (s : string) : bool := negb (s =? "").

(** [o || d] for an optional string [o]: [undefined] and [''] are falsy. *)
Definition orElse (o : option string) (d : string) : string :=
  match o with
  | Some s => if truthy s then s else d
  | None => d
  end.

(** [`${o}`] for an optional string. *)
Definition interp (o : option string) : string :=
  match o with
  | Some s => s
  | None => "undefined"
  end.

Definition upperAscii (c : ascii) : ascii :=
  let n := nat_of_ascii c in
  if ((97 <=? n) && (n <=? 122))%nat then ascii_of_nat (n - 32) else c.

Definition lowerAscii (c : ascii) : ascii :=
  let n := nat_of_ascii c in
  if ((65 <=? n) && (n <=? 90))%nat then ascii_of_nat (n + 32) else c.

Fixpoint mapString (f : ascii -> ascii) (s : string) : string :=
  match s with
  | EmptyString => EmptyString
  | String c r => String (f c) (mapString f r)
  end.

(** [String.prototype.toUpperCase] and [toLowerCase], on ASCII text (the
    casing of characters outside ASCII is not modelled). *)
Definition toUpperCase : string -> string := mapString upperAscii.
Definition toLowerCase : string -> string := mapString lowerAscii.

(** [s.startsWith(p)] *)
Definition startsWith (s p : string) : bool := String.prefix p s.

(** [s.includes(sub)] *)
Fixpoint includes (s sub : string) : bool :=
  String.prefix sub s ||
  match s with
  | EmptyString => false
  | String _ r => includes r sub
  end.

(** Decimal rendering of a non-negative number in a template literal. *)
Definition ofNat (n : nat) : string := NilZero.string_of_uint (Nat.to_uint n).

End Js.

(* ===================================================================== *)
(** ** types.ts *)
(* ===================================================================== *)

(** [CloudProvider = 'aws' | 'azure'] is erased at run time: the value is a
    string, and callers do pass other strings ([provider: 'invalid' as any]). *)
Definition CloudProvider := string.

Record AwsCredentials := {
  accessKeyId : string;
  secretAccessKey : string
}.

Record AzureCredentials := {
  tenantId : string;
  clientId : string;
  clientSecret : string;
  subscriptionId : string;
  storageConnectionString : string
}.

Record Credentials := {
  region : string;
  aws : option AwsCredentials;
  azure : option AzureCredentials
}.

Record CloudConfig := {
  provider : CloudProvider;
  credentials : Credentials
}.

Inductive InstanceStatus := running | stopped | terminated.

(** [ci_id] is the field [id]. *)
Record ComputeInstance := {
  ci_id : string;
  status : InstanceStatus;
  publicIp : option string;
  privateIp : option string
}.

Record StorageOptions := {
  container : string;
  path : string;
  contentType : option string
}.

Record MLModelOptions := {
  modelId : string;
  version : option string;
  runtime : option string
}.

(** A JSON value ([any] in the source). *)
#[warnings="-register-all"]
Inductive Json :=
| JNull
| JBool (b : bool)
| JNum (z : Z)
| JStr (s : string)
| JArr (l : list Json)
| JObj (l : list (string * Json)).

Record MLInferenceResult := {
  predictions : Json;
  latency : Z;
  modelVersion : string
}.

(** Node [Buffer]: a byte string. *)
Definition Buffer := string.

Record ModelFile := {
  file_path : string;
  content : Buffer
}.

(* ===================================================================== *)
(** ** errors.ts *)
(* ===================================================================== *)

Inductive CloudService := compute | storage | ml.

Definition serviceName (s : CloudService) : string :=
  match s with
  | compute => "compute"
  | storage => "storage"
  | ml => "ml"
  end.

(** Thrown values.  [PlainError name message] is an [Error] object (or an
    object of a vendor subclass) that is not an instance of
    [CloudProviderError]; [CloudProviderError] is the tagged class. *)
#[warnings="-register-all"]
Inductive Exception :=
| PlainError (name message : string)
| CloudProviderError (message : string) (provider : CloudProvider)
    (service : CloudService) (originalError : option Exception).

(** [new Error(message)] *)
Definition new_Error (message : string) : Exception := PlainError "Error" message.

Definition ConfigurationError (message : string) : Exception :=
  PlainError "ConfigurationError" message.

Definition ValidationError (message : string) : Exception :=
  PlainError "ValidationError" message.

Definition errName (e : Exception) : string :=
  match e with
  | PlainError n _ => n
  | CloudProviderError _ _ _ _ => "CloudProviderError"
  end.

Definition errMessage (e : Exception) : string :=
  match e with
  | PlainError _ m => m
  | CloudProviderError m _ _ _ => m
  end.

(** [error instanceof CloudProviderError] *)
Definition instanceofCloudProviderError (e : Exception) : bool :=
  match e with
  | PlainError _ _ => false
  | CloudProviderError _ _ _ _ => true
  end.

(** [`${error}`], i.e. [Error.prototype.toString]. *)
Definition errToString (e : Exception) : string :=
  let n := errName e in
  let m := errMessage e in
  if n =? "" then m
  else if m =? "" then n
  else n ++ ": " ++ m.

(** [CloudProviderError.fromError] *)
Definition fromError (error : Exception) (provider : CloudProvider)
    (service : CloudService) : Exception :=
  CloudProviderError
    (Js.toUpperCase provider ++ " " ++ serviceName service ++ " error: " ++ errMessage error)
    provider service (Some error).

(** Result of running a piece of code: it returns or it throws. *)
Inductive Outcome (A : Type) :=
| Returned (a : A)
| Thrown (e : Exception).

Arguments Returned {A} a.
Arguments Thrown {A} e.

Definition isThrown {A} (o : Outcome A) : bool :=
  match o with
  | Returned _ => false
  | Thrown _ => true
  end.

(* ===================================================================== *)
(** ** Vendor SDK boundary *)
(* ===================================================================== *)

(** *** Vendor data shapes (the fields the facade reads) *)

(** EC2 [Instance]; [StateName] stands for [State?.Name]. *)
Record EC2Instance := {
  InstanceId : option string;
  StateName : option string;
  PublicIpAddress : option string;
  PrivateIpAddress : option string
}.

Record Reservation := {
  Instances : option (list EC2Instance)
}.

(** Azure [VirtualMachine]; [networkInterfaces] stands for
    [networkProfile?.networkInterfaces], each entry being the [id] field. *)
Record VirtualMachine := {
  vm_name : option string;
  networkInterfaces : option (list (option string))
}.

Record InstanceViewStatus := {
  code : option string
}.

Record VirtualMachineInstanceView := {
  statuses : option (list InstanceViewStatus)
}.

Record OnlineEndpoint := {
  scoringUri : option string;
  authToken : option string
}.

(** The [Response] of [fetch]: [json] is the outcome of [response.json()]. *)
Record FetchResponse := {
  ok : bool;
  http_status : nat;
  json : Outcome Json
}.

(** The value of a property read on an object literal used as a map: an own
    property holds a string; a name found on [Object.prototype] instead holds
    an inherited member (a function or an object, always truthy). *)
Inductive PropValue :=
| OwnString (s : string)
| Inherited (name : string).

(** SageMaker [PrimaryContainer]. *)
Record ContainerDefinition := {
  Image : option PropValue;
  ModelDataUrl : option string
}.

(** *** Calls that leave the facade *)

Inductive SdkCall :=
(* ec2Client.send *)
| RunInstancesCommand (ImageId InstanceType : string) (UserData : option string) (NameTag : string)
| DescribeInstancesCommand (InstanceIds : option (list string))
| TerminateInstancesCommand (InstanceIds : list string)
(* s3Client.send *)
| PutObjectCommand (Bucket Key : string) (Body : Buffer) (ContentType : option string)
| GetObjectCommand (Bucket Key : string)
| DeleteObjectCommand (Bucket Key : string)
(* sagemakerClient.send *)
| CreateModelCommand (ModelName : string) (PrimaryContainer : option ContainerDefinition)
| InvokeEndpointCommand (EndpointName : string) (Body : Buffer)
(* computeClient.virtualMachines *)
| vm_beginCreateOrUpdate (resourceGroup name location vmSize imageId : string) (userData : option string)
| vm_pollUntilDone (resourceGroup name : string)
| vm_instanceView (resourceGroup name : string)
| vm_get (resourceGroup name : string)
| vm_beginDelete_pollUntilDone (resourceGroup name : string)
| vm_list (resourceGroup : string)
(* blobServiceClient / blockBlobClient *)
| blob_upload (container path : string) (data : Buffer) (length : nat) (blobContentType : option string)
| blob_download (container path : string) (offset : nat)
| blob_delete (container path : string)
| blob_getProperties
(* mlClient *)
| ml_models_createOrUpdate (resourceGroup modelId : string) (modelUri : option string) (framework version : string)
| ml_onlineEndpoints_beginCreateOrUpdate_pollUntilDone (resourceGroup name authMode : string) (model : option string)
| ml_onlineEndpoints_get (resourceGroup name : string)
| ml_models_list (resourceGroup : string)
(* Node runtime *)
| fetch_POST (uri : option string) (authorization contentTypeHeader body : string)
| Date_now
| process_env (variable : string).

(** What each call resolves to when it does not throw. *)
Definition RespOf (c : SdkCall) : Type :=
  match c with
  | RunInstancesCommand _ _ _ _ => option (list EC2Instance)      (* response.Instances *)
  | DescribeInstancesCommand _ => option (list Reservation)       (* response.Reservations *)
  | TerminateInstancesCommand _ => unit
  | PutObjectCommand _ _ _ _ => unit
  | GetObjectCommand _ _ => option (Outcome (list Buffer))        (* response.Body, drained by toArray() *)
  | DeleteObjectCommand _ _ => unit
  | CreateModelCommand _ _ => option string                       (* response.ModelArn *)
  | InvokeEndpointCommand _ _ => option Buffer                    (* response.Body *)
  | vm_beginCreateOrUpdate _ _ _ _ _ _ => unit                    (* the poller *)
  | vm_pollUntilDone _ _ => VirtualMachine
  | vm_instanceView _ _ => VirtualMachineInstanceView
  | vm_get _ _ => VirtualMachine
  | vm_beginDelete_pollUntilDone _ _ => unit
  | vm_list _ => unit
  | blob_upload _ _ _ _ _ => unit
  | blob_download _ _ _ => Outcome (list Buffer)                  (* readableStreamBody, iterated *)
  | blob_delete _ _ => unit
  | blob_getProperties => unit
  | ml_models_createOrUpdate _ _ _ _ _ => option string           (* model.id *)
  | ml_onlineEndpoints_beginCreateOrUpdate_pollUntilDone _ _ _ _ => option string  (* endpoint.id *)
  | ml_onlineEndpoints_get _ _ => OnlineEndpoint
  | ml_models_list _ => unit
  | fetch_POST _ _ _ _ => FetchResponse
  | Date_now => Z
  | process_env _ => option string
  end.

(** The calls issued so far, oldest first. *)
Definition Trace := list SdkCall.

(** The world outside the facade: it answers each call, knowing the history. *)
Definition Sdk := forall c : SdkCall, Trace -> Outcome (RespOf c).

(** *** The monad of asynchronous code

    An [async] body runs against an [Sdk] and a trace; it ends by returning or
    throwing, and the trace it leaves behind is kept in both cases. *)
Definition Async (A : Type) := Sdk -> Trace -> Outcome A * Trace.

Definition ret {A} (a : A) : Async A := fun _ tr => (Returned a, tr).

Definition throw {A} (e : Exception) : Async A := fun _ tr => (Thrown e, tr).

Definition bind {A B} (m : Async A) (k : A -> Async B) : Async B :=
  fun sdk tr =>
    match m sdk tr with
    | (Returned a, tr') => k a sdk tr'
    | (Thrown e, tr') => (Thrown e, tr')
    end.

(** [try { body } catch (error) { handler }] *)
Definition tryCatch {A} (body : Async A) (handler : Exception -> Async A) : Async A :=
  fun sdk tr =>
    match body sdk tr with
    | (Returned a, tr') => (Returned a, tr')
    | (Thrown e, tr') => handler e sdk tr'
    end.

(** [await client.send(command)] and the like: the call is recorded, the
    oracle answers. *)
Definition send (c : SdkCall) : Async (RespOf c) :=
  fun sdk tr => (sdk c tr, (tr ++ [c])%list).

(** Lifting of a value that is already an outcome (draining a stream). *)
Definition settle {A} (o : Outcome A) : Async A := fun _ tr => (o, tr).

Declare Scope async_scope.
Delimit Scope async_scope with async.
Notation "x <- m ;; k" := (bind m (fun x => k))
  (at level 61, m at next level, right associativity) : async_scope.
Notation "m ;;; k" := (bind m (fun _ => k))
  (at level 61, right associativity) : async_scope.
Open Scope async_scope.

(** [await Promise.all(ms)]: every element of [ms] is a call of an [async]
    function that reaches its single SDK call before its first suspension, so
    the calls are issued in array order whatever their answers; the joint
    promise resolves to the list of results, or rejects when one element
    rejects (the element earliest in the array is taken here; the source
    leaves open which rejection settles first). *)
Fixpoint promiseAll {A} (ms : list (Async A)) : Async (list A) :=
  fun sdk tr =>
    match ms with
    | [] => (Returned [], tr)
    | m :: rest =>
        let (o, tr1) := m sdk tr in
        let (os, tr2) := promiseAll rest sdk tr1 in
        match o, os with
        | Thrown e, _ => (Thrown e, tr2)
        | Returned _, Thrown e => (Thrown e, tr2)
        | Returned a, Returned l => (Returned (a :: l), tr2)
        end
    end.

(** [wrapProviderOperation] *)
Definition wrapProviderOperation {T} (operation : Async T)
    (provider : CloudProvider) (service : CloudService) : Async T :=
  tryCatch operation
    (fun error =>
       if instanceofCloudProviderError error then throw error
       else throw (fromError error provider service)).

(** Built-ins of the Node runtime and of the vendor SDKs that the facade
    uses as pure functions; they are not part of the repository and are taken
    as parameters. *)
Record Runtime := {
  base64 : string -> string;              (* Buffer.from(s).toString('base64') *)
  JSON_stringify : Json -> string;
  JSON_parse : string -> Outcome Json;    (* throws a SyntaxError on bad input *)
  blobUrl : string -> string -> string    (* blockBlobClient.url of a container and a blob path *)
}.

(** [Buffer.concat(chunks)] *)
Definition Buffer_concat (chunks : list Buffer) : Buffer := String.concat "" chunks.

(* ===================================================================== *)
(** ** cloud-provider.interface.ts *)
(* ===================================================================== *)

Record ComputeOptions := {
  name : string;
  instanceType : string;
  imageId : string;
  userData : option string
}.

Inductive HealthStatus := healthy | unhealthy.

Record ServiceFlags := {
  svc_compute : bool;
  svc_storage : bool;
  svc_ml : bool
}.

Record Health := {
  health_status : HealthStatus;
  services : ServiceFlags
}.

(** [Object.values(services)] *)
Definition Object_values (s : ServiceFlags) : list bool :=
  [svc_compute s; svc_storage s; svc_ml s].

(** [Object.values(services).every(s => s) ? 'healthy' : 'unhealthy'] *)
Definition overallStatus (s : ServiceFlags) : HealthStatus :=
  if forallb (fun s => s) (Object_values s) then healthy else unhealthy.

(** [options.userData ? Buffer.from(options.userData).toString('base64') : undefined] *)
Definition encodeUserData (rt : Runtime) (u : option string) : option string :=
  match u with
  | Some s => if Js.truthy s then Some (base64 rt s) else None
  | None => None
  end.

(** The two concrete classes deriving from [BaseCloudProvider]. *)
Inductive ProviderClass := AWS | Azure.

(** A provider object on the heap: [address] is its identity, [config] the
    field set by the [BaseCloudProvider] constructor. *)
Record ProviderObj := {
  address : nat;
  class : ProviderClass;
  config : CloudConfig
}.

(** [BaseCloudProvider.getConfig] *)
Definition getConfig (this : ProviderObj) : CloudConfig := config this.

(* ===================================================================== *)
(** ** aws-provider.ts *)
(* ===================================================================== *)

Module AWSProvider.
Section Methods.

Variable rt : Runtime.

Definition mapEC2Status (status : option string) : InstanceStatus :=
  match status with
  | Some s =>
      if s =? "running" then running
      else if s =? "stopped" then stopped
      else terminated
  | None => terminated
  end.

Definition mapEC2InstanceToComputeInstance (instance : EC2Instance) : ComputeInstance :=
  {| ci_id := Js.orElse (InstanceId instance) "";
     status := mapEC2Status (StateName instance);
     publicIp := PublicIpAddress instance;
     privateIp := PrivateIpAddress instance |}.

Definition createComputeInstance (options : ComputeOptions) : Async ComputeInstance :=
  let command :=
    RunInstancesCommand (imageId options) (instanceType options)
      (encodeUserData rt (userData options)) (name options) in
  tryCatch
    (response <- send command ;;
     match response return Async ComputeInstance with
     | None | Some [] => throw (new_Error "Failed to create EC2 instance")
     | Some (instance :: _) => ret (mapEC2InstanceToComputeInstance instance)
     end)
    (fun error => throw (new_Error ("Failed to create compute instance: " ++ errToString error))).

(** [response.Reservations?.[0]?.Instances?.[0]] *)
Definition firstInstance (reservations : option (list Reservation)) : option EC2Instance :=
  match reservations with
  | Some (r :: _) =>
      match Instances r with
      | Some (i :: _) => Some i
      | _ => None
      end
  | _ => None
  end.

Definition getComputeInstance (instanceId : string) : Async ComputeInstance :=
  let command := DescribeInstancesCommand (Some [instanceId]) in
  tryCatch
    (response <- send command ;;
     match firstInstance response return Async ComputeInstance with
     | None => throw (new_Error ("Instance " ++ instanceId ++ " not found"))
     | Some instance => ret (mapEC2InstanceToComputeInstance instance)
     end)
    (fun error => throw (new_Error ("Failed to get compute instance: " ++ errToString error))).

Definition terminateInstance (instanceId : string) : Async unit :=
  let command := TerminateInstancesCommand [instanceId] in
  tryCatch
    (send command ;;; ret tt)
    (fun error => throw (new_Error ("Failed to terminate instance: " ++ errToString error))).

Definition uploadFile (options : StorageOptions) (data : Buffer) : Async string :=
  let command :=
    PutObjectCommand (container options) (path options) data (contentType options) in
  tryCatch
    (send command ;;;
     ret ("s3://" ++ container options ++ "/" ++ path options))
    (fun error => throw (new_Error ("Failed to upload file: " ++ errToString error))).

Definition downloadFile (options : StorageOptions) : Async Buffer :=
  let command := GetObjectCommand (container options) (path options) in
  tryCatch
    (response <- send command ;;
     match response return Async Buffer with
     | None => throw (new_Error "No data received")
     | Some streamResponse =>
         chunks <- settle streamResponse ;;
         ret (Buffer_concat chunks)
     end)
    (fun error => throw (new_Error ("Failed to download file: " ++ errToString error))).

Definition deleteFile (options : StorageOptions) : Async unit :=
  let command := DeleteObjectCommand (container options) (path options) in
  tryCatch
    (send command ;;; ret tt)
    (fun error => throw (new_Error ("Failed to delete file: " ++ errToString error))).

(** Own properties of the [runtimeMap] object literal. *)
Definition runtimeMap : list (string * string) :=
  [ ("pytorch", "763104351884.dkr.ecr.us-east-1.amazonaws.com/pytorch-inference:1.8.1-cpu-py36-ubuntu18.04");
    ("tensorflow", "763104351884.dkr.ecr.us-east-1.amazonaws.com/tensorflow-inference:2.5.1-cpu-py37-ubuntu18.04");
    ("sklearn", "683313688378.dkr.ecr.us-east-1.amazonaws.com/sagemaker-scikit-learn:0.23-1-cpu-py3") ].

(** Property names every object literal inherits from [Object.prototype]. *)
Definition objectPrototypeKeys : list string :=
  [ "constructor"; "__proto__"; "hasOwnProperty"; "isPrototypeOf";
    "propertyIsEnumerable"; "toLocaleString"; "toString"; "valueOf";
    "__defineGetter__"; "__defineSetter__"; "__lookupGetter__"; "__lookupSetter__" ].

Fixpoint ownProperty (obj : list (string * string)) (key : string) : option string :=
  match obj with
  | [] => None
  | (k, v) :: rest => if k =? key then Some v else ownProperty rest key
  end.

(** [obj[key]] on an object literal: own properties first, then the
    prototype; [None] is [undefined]. *)
Definition getProperty (obj : list (string * string)) (key : string) : option PropValue :=
  match ownProperty obj key with
  | Some v => Some (OwnString v)
  | None =>
      if existsb (String.eqb key) objectPrototypeKeys then Some (Inherited key) else None
  end.

Definition truthyProp (v : option PropValue) : bool :=
  match v with
  | Some (OwnString s) => Js.truthy s
  | Some (Inherited _) => true
  | None => false
  end.

(** [runtimeMap[runtime] || runtimeMap['pytorch']] *)
Definition getModelImage (runtime : string) : option PropValue :=
  if truthyProp (getProperty runtimeMap runtime)
  then getProperty runtimeMap runtime
  else getProperty runtimeMap "pytorch".

Definition deployModel (options : MLModelOptions) (modelFiles : list ModelFile) : Async string :=
  modelArtifacts <-
    promiseAll
      (map (fun file =>
              uploadFile {| container := "model-artifacts";
                            path := modelId options ++ "/" ++ file_path file;
                            contentType := None |} (content file))
           modelFiles) ;;
  let command :=
    CreateModelCommand (modelId options)
      (Some {| Image := getModelImage (Js.orElse (runtime options) "pytorch");
               ModelDataUrl := nth_error modelArtifacts 0 |}) in
  tryCatch
    (response <- send command ;;
     ret (Js.orElse response (modelId options)))
    (fun error => throw (new_Error ("Failed to deploy model: " ++ errToString error))).

Definition runInference (options : MLModelOptions) (input : Json) : Async MLInferenceResult :=
  let command := InvokeEndpointCommand (modelId options) (JSON_stringify rt input) in
  tryCatch
    (startTime <- send Date_now ;;
     response <- send command ;;
     now <- send Date_now ;;
     let latency := (now - startTime)%Z in
     match response return Async MLInferenceResult with
     | None => throw (new_Error "No prediction received")
     | Some body =>
         predictions <- settle (JSON_parse rt body) ;;
         ret {| predictions := predictions;
                latency := latency;
                modelVersion := Js.orElse (version options) "latest" |}
     end)
    (fun error => throw (new_Error ("Failed to run inference: " ++ errToString error))).

Definition healthCheck : Async Health :=
  let services := {| svc_compute := false; svc_storage := false; svc_ml := false |} in
  services <-
    tryCatch
      (send (DescribeInstancesCommand None) ;;;
       ret {| svc_compute := true; svc_storage := svc_storage services; svc_ml := svc_ml services |})
      (fun _ => ret services) ;;
  services <-
    tryCatch
      (send (GetObjectCommand "test-bucket" "test-file") ;;;
       ret {| svc_compute := svc_compute services; svc_storage := true; svc_ml := svc_ml services |})
      (fun _ => ret services) ;;
  services <-
    tryCatch
      (send (CreateModelCommand "test-model" None) ;;;
       ret {| svc_compute := svc_compute services; svc_storage := svc_storage services; svc_ml := true |})
      (fun _ => ret services) ;;
  ret {| health_status := overallStatus services; services := services |}.

End Methods.
End AWSProvider.

(* ===================================================================== *)
(** ** azure-provider.ts *)
(* ===================================================================== *)

Module AzureProvider.
Section Methods.

Variable rt : Runtime.

(** [this.resourceGroup], set once by the constructor. *)
Definition resourceGroup : string := "dsar-resource-group".

(** [s => s.code?.startsWith('PowerState/')] *)
Definition isPowerState (s : InstanceViewStatus) : bool :=
  match code s with
  | Some c => Js.startsWith c "PowerState/"
  | None => false
  end.

(** [powerState?.code?.includes(word)] as a condition. *)
Definition codeIncludes (powerState : option InstanceViewStatus) (word : string) : bool :=
  match powerState with
  | Some s =>
      match code s with
      | Some c => Js.includes c word
      | None => false
      end
  | None => false
  end.

(** The [status] computed by [mapAzureVMToComputeInstance]. *)
Definition mapAzureStatus (instanceView : option VirtualMachineInstanceView) : InstanceStatus :=
  match instanceView with
  | Some view =>
      match statuses view with
      | Some sts =>
          let powerState := find isPowerState sts in
          if codeIncludes powerState "running" then running
          else if codeIncludes powerState "stopped" then stopped
          else terminated
      | None => terminated
      end
  | None => terminated
  end.

Definition mapAzureVMToComputeInstance (vm : VirtualMachine)
    (instanceView : option VirtualMachineInstanceView) : ComputeInstance :=
  {| ci_id := Js.orElse (vm_name vm) "";
     status := mapAzureStatus instanceView;
     publicIp := match networkInterfaces vm with
                 | Some (nic :: _) => nic
                 | _ => None
                 end;
     privateIp := None |}.

Definition createComputeInstance (this : ProviderObj) (options : ComputeOptions)
    : Async ComputeInstance :=
  tryCatch
    (send (vm_beginCreateOrUpdate resourceGroup (name options)
             (region (credentials (config this)))
             (instanceType options) (imageId options)
             (encodeUserData rt (userData options))) ;;;
     result <- send (vm_pollUntilDone resourceGroup (name options)) ;;
     instanceView <- send (vm_instanceView resourceGroup (name options)) ;;
     ret (mapAzureVMToComputeInstance result (Some instanceView)))
    (fun error => throw (new_Error ("Failed to create compute instance: " ++ errToString error))).

Definition getComputeInstance (instanceId : string) : Async ComputeInstance :=
  tryCatch
    (vm <- send (vm_get resourceGroup instanceId) ;;
     instanceView <- send (vm_instanceView resourceGroup instanceId) ;;
     ret (mapAzureVMToComputeInstance vm (Some instanceView)))
    (fun error => throw (new_Error ("Failed to get compute instance: " ++ errToString error))).

Definition terminateInstance (instanceId : string) : Async unit :=
  tryCatch
    (send (vm_beginDelete_pollUntilDone resourceGroup instanceId) ;;; ret tt)
    (fun error => throw (new_Error ("Failed to terminate instance: " ++ errToString error))).

Definition uploadFile (options : StorageOptions) (data : Buffer) : Async string :=
  tryCatch
    (send (blob_upload (container options) (path options) data (String.length data)
             (contentType options)) ;;;
     ret (blobUrl rt (container options) (path options)))
    (fun error => throw (new_Error ("Failed to upload file: " ++ errToString error))).

Definition downloadFile (options : StorageOptions) : Async Buffer :=
  tryCatch
    (downloadResponse <- send (blob_download (container options) (path options) 0) ;;
     chunks <- settle downloadResponse ;;
     ret (Buffer_concat chunks))
    (fun error => throw (new_Error ("Failed to download file: " ++ errToString error))).

Definition deleteFile (options : StorageOptions) : Async unit :=
  tryCatch
    (send (blob_delete (container options) (path options)) ;;; ret tt)
    (fun error => throw (new_Error ("Failed to delete file: " ++ errToString error))).

Definition deployModel (options : MLModelOptions) (modelFiles : list ModelFile) : Async string :=
  tryCatch
    (modelArtifacts <-
       promiseAll
         (map (fun file =>
                 uploadFile {| container := "model-artifacts";
                               path := modelId options ++ "/" ++ file_path file;
                               contentType := None |} (content file))
              modelFiles) ;;
     model <-
       send (ml_models_createOrUpdate resourceGroup (modelId options)
               (nth_error modelArtifacts 0)
               (Js.orElse (runtime options) "pytorch")
               (Js.orElse (version options) "1.0")) ;;
     endpoint <-
       send (ml_onlineEndpoints_beginCreateOrUpdate_pollUntilDone resourceGroup
               (modelId options ++ "-endpoint") "key" model) ;;
     ret (Js.orElse endpoint (modelId options)))
    (fun error => throw (new_Error ("Failed to deploy model: " ++ errToString error))).

Definition runInference (options : MLModelOptions) (input : Json) : Async MLInferenceResult :=
  tryCatch
    (startTime <- send Date_now ;;
     endpoint <- send (ml_onlineEndpoints_get resourceGroup (modelId options ++ "-endpoint")) ;;
     response <-
       send (fetch_POST (scoringUri endpoint)
               ("Bearer " ++ Js.interp (authToken endpoint))
               "application/json"
               (JSON_stringify rt input)) ;;
     if negb (ok response)
     then throw (new_Error ("Inference failed with status " ++ Js.ofNat (http_status response)))
     else
       predictions <- settle (json response) ;;
       now <- send Date_now ;;
       let latency := (now - startTime)%Z in
       ret {| predictions := predictions;
              latency := latency;
              modelVersion := Js.orElse (version options) "latest" |})
    (fun error => throw (new_Error ("Failed to run inference: " ++ errToString error))).

Definition healthCheck : Async Health :=
  let services := {| svc_compute := false; svc_storage := false; svc_ml := false |} in
  services <-
    tryCatch
      (send (vm_list resourceGroup) ;;;
       ret {| svc_compute := true; svc_storage := svc_storage services; svc_ml := svc_ml services |})
      (fun _ => ret services) ;;
  services <-
    tryCatch
      (send blob_getProperties ;;;
       ret {| svc_compute := svc_compute services; svc_storage := true; svc_ml := svc_ml services |})
      (fun _ => ret services) ;;
  services <-
    tryCatch
      (send (ml_models_list resourceGroup) ;;;
       ret {| svc_compute := svc_compute services; svc_storage := svc_storage services; svc_ml := true |})
      (fun _ => ret services) ;;
  ret {| health_status := overallStatus services; services := services |}.

End Methods.
End AzureProvider.

(* ===================================================================== *)
(** ** The capability interface [ICloudProvider], dispatched on the class *)
(* ===================================================================== *)

Inductive Operation :=
| op_createComputeInstance (options : ComputeOptions)
| op_getComputeInstance (instanceId : string)
| op_terminateInstance (instanceId : string)
| op_uploadFile (options : StorageOptions) (data : Buffer)
| op_downloadFile (options : StorageOptions)
| op_deleteFile (options : StorageOptions)
| op_deployModel (options : MLModelOptions) (modelFiles : list ModelFile)
| op_runInference (options : MLModelOptions) (input : Json).

Inductive OpResult :=
| res_instance (i : ComputeInstance)
| res_void
| res_string (s : string)
| res_buffer (b : Buffer)
| res_inference (r : MLInferenceResult).

(** The service an operation belongs to (the sections of the interface). *)
Definition serviceOf (op : Operation) : CloudService :=
  match op with
  | op_createComputeInstance _ | op_getComputeInstance _ | op_terminateInstance _ => compute
  | op_uploadFile _ _ | op_downloadFile _ | op_deleteFile _ => storage
  | op_deployModel _ _ | op_runInference _ _ => ml
  end.

Definition fmap {A B} (f : A -> B) (m : Async A) : Async B :=
  a <- m ;; ret (f a).

(** [provider.<operation>(...)] through an [ICloudProvider] reference. *)
Definition invoke (rt : Runtime) (this : ProviderObj) (op : Operation) : Async OpResult :=
  match class this, op with
  | AWS, op_createComputeInstance o => fmap res_instance (AWSProvider.createComputeInstance rt o)
  | AWS, op_getComputeInstance i => fmap res_instance (AWSProvider.getComputeInstance i)
  | AWS, op_terminateInstance i => fmap (fun _ => res_void) (AWSProvider.terminateInstance i)
  | AWS, op_uploadFile o d => fmap res_string (AWSProvider.uploadFile o d)
  | AWS, op_downloadFile o => fmap res_buffer (AWSProvider.downloadFile o)
  | AWS, op_deleteFile o => fmap (fun _ => res_void) (AWSProvider.deleteFile o)
  | AWS, op_deployModel o fs => fmap res_string (AWSProvider.deployModel o fs)
  | AWS, op_runInference o i => fmap res_inference (AWSProvider.runInference rt o i)
  | Azure, op_createComputeInstance o => fmap res_instance (AzureProvider.createComputeInstance rt this o)
  | Azure, op_getComputeInstance i => fmap res_instance (AzureProvider.getComputeInstance i)
  | Azure, op_terminateInstance i => fmap (fun _ => res_void) (AzureProvider.terminateInstance i)
  | Azure, op_uploadFile o d => fmap res_string (AzureProvider.uploadFile rt o d)
  | Azure, op_downloadFile o => fmap res_buffer (AzureProvider.downloadFile o)
  | Azure, op_deleteFile o => fmap (fun _ => res_void) (AzureProvider.deleteFile o)
  | Azure, op_deployModel o fs => fmap res_string (AzureProvider.deployModel rt o fs)
  | Azure, op_runInference o i => fmap res_inference (AzureProvider.runInference rt o i)
  end.

(** [provider.healthCheck()] *)
Definition invokeHealthCheck (this : ProviderObj) : Async Health :=
  match class this with
  | AWS => AWSProvider.healthCheck
  | Azure => AzureProvider.healthCheck
  end.

(* ===================================================================== *)
(** ** cloud-provider.factory.ts *)
(* ===================================================================== *)

Module CloudProviderFactory.

(** The singleton factory object together with the allocator of provider
    objects: [nextAddress] is the identity the next [new] will hand out. *)
Record Store := {
  currentProvider : option ProviderObj;
  nextAddress : nat
}.

Section Factory.

(** The vendor client constructors run by a provider constructor
    ([new EC2Client(..)], [BlobServiceClient.fromConnectionString(..)], ...):
    external code that accepts the configuration or throws. *)
Variable newClients : ProviderClass -> CloudConfig -> Outcome unit.

(** [new AWSProvider(config)]: the object is allocated, then the constructor
    body runs. *)
Definition new_AWSProvider (config : CloudConfig) (st : Store) : Outcome ProviderObj * Store :=
  let this := {| address := nextAddress st; class := AWS; config := config |} in
  let st' := {| currentProvider := currentProvider st; nextAddress := S (nextAddress st) |} in
  match aws (credentials config) with
  | None => (Thrown (new_Error "AWS credentials not provided"), st')
  | Some _ =>
      match newClients AWS config with
      | Thrown e => (Thrown e, st')
      | Returned _ => (Returned this, st')
      end
  end.

(** [new AzureProvider(config)] *)
Definition new_AzureProvider (config : CloudConfig) (st : Store) : Outcome ProviderObj * Store :=
  let this := {| address := nextAddress st; class := Azure; config := config |} in
  let st' := {| currentProvider := currentProvider st; nextAddress := S (nextAddress st) |} in
  match azure (credentials config) with
  | None => (Thrown (new_Error "Azure credentials not provided"), st')
  | Some _ =>
      match newClients Azure config with
      | Thrown e => (Thrown e, st')
      | Returned _ => (Returned this, st')
      end
  end.

(** [this.currentProvider = p] *)
Definition setCurrent (p : ProviderObj) (st : Store) : Store :=
  {| currentProvider := Some p; nextAddress := nextAddress st |}.

Definition getProvider (config : CloudConfig) (st : Store) : Outcome ProviderObj * Store :=
  match currentProvider st with
  | Some p => (Returned p, st)
  | None =>
      if provider config =? "aws" then
        match aws (credentials config) with
        | None => (Thrown (new_Error "AWS credentials not provided"), st)
        | Some _ =>
            match new_AWSProvider config st with
            | (Returned p, st') => (Returned p, setCurrent p st')
            | (Thrown e, st') => (Thrown e, st')
            end
        end
      else if provider config =? "azure" then
        match azure (credentials config) with
        | None => (Thrown (new_Error "Azure credentials not provided"), st)
        | Some _ =>
            match new_AzureProvider config st with
            | (Returned p, st') => (Returned p, setCurrent p st')
            | (Thrown e, st') => (Thrown e, st')
            end
        end
      else (Thrown (new_Error ("Unsupported cloud provider: " ++ provider config)), st)
  end.

Definition clearProvider (st : Store) : Store :=
  {| currentProvider := None; nextAddress := nextAddress st |}.

(** A run of [getProvider] calls, one per configuration, in order. *)
Fixpoint getProviderEach (configs : list CloudConfig) (st : Store)
    : list (Outcome ProviderObj) * Store :=
  match configs with
  | [] => ([], st)
  | c :: rest =>
      let (o, st1) := getProvider c st in
      let (os, st2) := getProviderEach rest st1 in
      (o :: os, st2)
  end.

End Factory.
End CloudProviderFactory.

(* ===================================================================== *)
(** ** config-loader.ts *)
(* ===================================================================== *)

Module ConfigLoader.

(** The singleton loader object: its [config] field. *)
Record Loader := {
  cached : option CloudConfig
}.

(** [process.env[name]]: reading the environment is a recorded call. *)
Definition getEnv (name : string) : Async (option string) := send (process_env name).

Definition getRequiredEnv (name : string) : Async string :=
  value <- getEnv name ;;
  match value with
  | Some v =>
      if Js.truthy v then ret v
      else throw (new_Error ("Required environment variable " ++ name ++ " is not set"))
  | None => throw (new_Error ("Required environment variable " ++ name ++ " is not set"))
  end.

(** [!provider] for the optional argument. *)
Definition absent (provider : option CloudProvider) : bool :=
  match provider with
  | Some p => negb (Js.truthy p)
  | None => true
  end.

(** The part of [loadConfig] below the cache test: it builds a configuration
    from the environment. *)
Definition readFromEnvironment (provider : option CloudProvider) : Async CloudConfig :=
  selected <-
    (if absent provider
     then (v <- getEnv "CLOUD_PROVIDER" ;; ret (Js.orElse v "aws"))
     else ret (Js.interp provider)) ;;
  let envProvider := Js.toLowerCase selected in
  r <- getEnv "CLOUD_REGION" ;;
  let region := Js.orElse r "us-east-1" in
  if envProvider =? "aws" then
    accessKeyId <- getRequiredEnv "AWS_ACCESS_KEY_ID" ;;
    secretAccessKey <- getRequiredEnv "AWS_SECRET_ACCESS_KEY" ;;
    ret {| provider := envProvider;
           credentials :=
             {| region := region;
                aws := Some {| accessKeyId := accessKeyId;
                               secretAccessKey := secretAccessKey |};
                azure := None |} |}
  else if envProvider =? "azure" then
    tenantId <- getRequiredEnv "AZURE_TENANT_ID" ;;
    clientId <- getRequiredEnv "AZURE_CLIENT_ID" ;;
    clientSecret <- getRequiredEnv "AZURE_CLIENT_SECRET" ;;
    subscriptionId <- getRequiredEnv "AZURE_SUBSCRIPTION_ID" ;;
    storageConnectionString <- getRequiredEnv "AZURE_STORAGE_CONNECTION_STRING" ;;
    ret {| provider := envProvider;
           credentials :=
             {| region := region;
                aws := None;
                azure := Some {| tenantId := tenantId;
                                 clientId := clientId;
                                 clientSecret := clientSecret;
                                 subscriptionId := subscriptionId;
                                 storageConnectionString := storageConnectionString |} |} |}
  else throw (new_Error ("Unsupported cloud provider: " ++ envProvider)).

Definition loadConfig (this : Loader) (provider : option CloudProvider)
    (sdk : Sdk) (tr : Trace) : Outcome CloudConfig * Loader * Trace :=
  match cached this, absent provider with
  | Some c, true => (Returned c, this, tr)
  | _, _ =>
      match readFromEnvironment provider sdk tr with
      | (Returned c, tr') => (Returned c, {| cached := Some c |}, tr')
      | (Thrown e, tr') => (Thrown e, this, tr')
      end
  end.

End ConfigLoader.

(* ===================================================================== *)
(** * Vocabulary of the properties, sample inputs *)
(* ===================================================================== *)

(** [s] contains [w] as a contiguous substring. *)
Definition contains (s w : string) : Prop := exists a b, s = a ++ w ++ b.

(** An SDK that rejects every call with the same vendor error. *)
Definition sdkRejecting (e : Exception) : Sdk := fun _ _ => Thrown e.

(** The three probes of a provider, in the order they are issued. *)
Definition probes (c : ProviderClass) : list SdkCall :=
  match c with
  | AWS => [ DescribeInstancesCommand None;
             GetObjectCommand "test-bucket" "test-file";
             CreateModelCommand "test-model" None ]
  | Azure => [ vm_list AzureProvider.resourceGroup;
               blob_getProperties;
               ml_models_list AzureProvider.resourceGroup ]
  end.

(** Whether the SDK answers call [c], issued after history [tr], without
    throwing. *)
Definition accepted (sdk : Sdk) (tr : Trace) (c : SdkCall) : bool :=
  negb (isThrown (sdk c tr)).

(** The answers given to a sequence of calls issued one after the other. *)
Fixpoint acceptedEach (sdk : Sdk) (tr : Trace) (calls : list SdkCall) : list bool :=
  match calls with
  | [] => []
  | c :: rest => accepted sdk tr c :: acceptedEach sdk (tr ++ [c])%list rest
  end.

(** The example of the specification: compute and storage answer, the ML
    probe throws. *)
Definition sdkWithoutML : Sdk :=
  fun c _ =>
    match c return Outcome (RespOf c) with
    | DescribeInstancesCommand _ => Returned None
    | GetObjectCommand _ _ => Returned None
    | _ => Thrown (PlainError "ServiceUnavailable" "ml is down")
    end.

(** The power-state code of an Azure instance view: the code of the first
    status entry whose code begins with ["PowerState/"], if any. *)
Fixpoint firstPowerStateCode (sts : list InstanceViewStatus) : option string :=
  match sts with
  | [] => None
  | s :: rest =>
      match code s with
      | Some c => if String.prefix "PowerState/" c then Some c else firstPowerStateCode rest
      | None => firstPowerStateCode rest
      end
  end.

Definition powerStateCode (view : option VirtualMachineInstanceView) : option string :=
  match view with
  | Some v =>
      match statuses v with
      | Some sts => firstPowerStateCode sts
      | None => None
      end
  | None => None
  end.

(** Sample configurations. *)
Definition awsConfig : CloudConfig :=
  {| provider := "aws";
     credentials :=
       {| region := "us-east-1";
          aws := Some {| accessKeyId := "test-key"; secretAccessKey := "test-secret" |};
          azure := None |} |}.

Definition azureConfig : CloudConfig :=
  {| provider := "azure";
     credentials :=
       {| region := "eastus";
          aws := None;
          azure := Some {| tenantId := "test-tenant";
                           clientId := "test-client";
                           clientSecret := "test-secret";
                           subscriptionId := "test-subscription";
                           storageConnectionString := "test-connection-string" |} |} |}.

Definition invalidConfig : CloudConfig :=
  {| provider := "invalid"; credentials := credentials awsConfig |}.

(** Vendor client constructors that accept every configuration. *)
Definition clientsAccept : ProviderClass -> CloudConfig -> Outcome unit :=
  fun _ _ => Returned tt.

Definition emptyStore : CloudProviderFactory.Store :=
  {| CloudProviderFactory.currentProvider := None;
     CloudProviderFactory.nextAddress := 0 |}.

Definition awsInstance0 : ProviderObj :=
  {| address := 0; class := AWS; config := awsConfig |}.

Definition storeWithAws : CloudProviderFactory.Store :=
  {| CloudProviderFactory.currentProvider := Some awsInstance0;
     CloudProviderFactory.nextAddress := 1 |}.

(** A configuration is valid for the factory when its provider value is
    supported, the matching credential block is present and the vendor client
    constructors accept it. *)
Definition validConfig (newClients : ProviderClass -> CloudConfig -> Outcome unit)
    (config : CloudConfig) : Prop :=
  (provider config = "aws" /\ aws (credentials config) <> None /\
   isThrown (newClients AWS config) = false) \/
  (provider config = "azure" /\ azure (credentials config) <> None /\
   isThrown (newClients Azure config) = false).

(** Running [m] appends to the trace it is given. *)
Definition extends {A} (m : Async A) : Prop :=
  forall sdk tr, exists rest, snd (m sdk tr) = (tr ++ rest)%list.

(** The storage address [deployModel] gives to a model file. *)
Definition artifactOptions (options : MLModelOptions) (file : ModelFile) : StorageOptions :=
  {| container := "model-artifacts";
     path := modelId options ++ "/" ++ file_path file;
     contentType := None |}.

(** The vendor call by which a provider writes one object. *)
Definition uploadCall (c : ProviderClass) (o : StorageOptions) (data : Buffer) : SdkCall :=
  match c with
  | AWS => PutObjectCommand (container o) (path o) data (contentType o)
  | Azure => blob_upload (container o) (path o) data (String.length data) (contentType o)
  end.

(** The locator [uploadFile] returns for an object. *)
Definition locatorOf (rt : Runtime) (c : ProviderClass) (o : StorageOptions) : string :=
  match c with
  | AWS => "s3://" ++ container o ++ "/" ++ path o
  | Azure => blobUrl rt (container o) (path o)
  end.

Definition uploadFileOf (rt : Runtime) (c : ProviderClass)
    : StorageOptions -> Buffer -> Async string :=
  match c with
  | AWS => AWSProvider.uploadFile
  | Azure => AzureProvider.uploadFile rt
  end.

Definition deployModelOf (rt : Runtime) (c : ProviderClass)
    : MLModelOptions -> list ModelFile -> Async string :=
  match c with
  | AWS => AWSProvider.deployModel
  | Azure => AzureProvider.deployModel rt
  end.

Definition isUpload (c : SdkCall) : bool :=
  match c with
  | PutObjectCommand _ _ _ _ | blob_upload _ _ _ _ _ => true
  | _ => false
  end.

(** The model-registration calls: SageMaker [CreateModel] and Azure ML
    [models.createOrUpdate]. *)
Definition isRegistration (c : SdkCall) : bool :=
  match c with
  | CreateModelCommand _ _ | ml_models_createOrUpdate _ _ _ _ _ => true
  | _ => false
  end.

(** The model-artifact reference carried by a registration call. *)
Definition artifactRef (c : SdkCall) : option string :=
  match c with
  | CreateModelCommand _ (Some pc) => ModelDataUrl pc
  | ml_models_createOrUpdate _ _ uri _ _ => uri
  | _ => None
  end.

(** The image or framework reference carried by a registration call. *)
Definition runtimeRef (c : SdkCall) : option PropValue :=
  match c with
  | CreateModelCommand _ (Some pc) => Image pc
  | ml_models_createOrUpdate _ _ _ framework _ => Some (OwnString framework)
  | _ => None
  end.

(** The calls [m] adds to the trace. *)
Definition issued {A} (m : Async A) (sdk : Sdk) (tr : Trace) : list SdkCall :=
  skipn (List.length tr) (snd (m sdk tr)).

(** All calls of a sequence are answered without a throw. *)
Definition allAccepted (sdk : Sdk) (tr : Trace) (calls : list SdkCall) : bool :=
  forallb (fun b => b) (acceptedEach sdk tr calls).

(** The uploads [deployModel] issues for its files, in array order. *)
Definition uploadsFor (c : ProviderClass) (options : MLModelOptions)
    (files : list ModelFile) : list SdkCall :=
  map (fun f => uploadCall c (artifactOptions options f) (content f)) files.

(** The locators of the files, in array order. *)
Definition locatorsFor (rt : Runtime) (c : ProviderClass) (options : MLModelOptions)
    (files : list ModelFile) : list string :=
  map (fun f => locatorOf rt c (artifactOptions options f)) files.

(** A failure that is a plain [Error] built by [new Error(..)]. *)
Definition plainFailure {A} (o : Outcome A) : Prop :=
  match o with
  | Returned _ => True
  | Thrown e => exists m, e = new_Error m
  end.

(** A response of the right shape for each call. *)
Definition defaultResp (c : SdkCall) : RespOf c :=
  match c return RespOf c with
  | RunInstancesCommand _ _ _ _ => None
  | DescribeInstancesCommand _ => None
  | TerminateInstancesCommand _ => tt
  | PutObjectCommand _ _ _ _ => tt
  | GetObjectCommand _ _ => None
  | DeleteObjectCommand _ _ => tt
  | CreateModelCommand _ _ => None
  | InvokeEndpointCommand _ _ => None
  | vm_beginCreateOrUpdate _ _ _ _ _ _ => tt
  | vm_pollUntilDone _ _ => {| vm_name := None; networkInterfaces := None |}
  | vm_instanceView _ _ => {| statuses := None |}
  | vm_get _ _ => {| vm_name := None; networkInterfaces := None |}
  | vm_beginDelete_pollUntilDone _ _ => tt
  | vm_list _ => tt
  | blob_upload _ _ _ _ _ => tt
  | blob_download _ _ _ => Returned []
  | blob_delete _ _ => tt
  | blob_getProperties => tt
  | ml_models_createOrUpdate _ _ _ _ _ => None
  | ml_onlineEndpoints_beginCreateOrUpdate_pollUntilDone _ _ _ _ => None
  | ml_onlineEndpoints_get _ _ => {| scoringUri := None; authToken := None |}
  | ml_models_list _ => tt
  | fetch_POST _ _ _ _ => {| ok := true; http_status := 200; json := Returned JNull |}
  | Date_now => 0%Z
  | process_env _ => None
  end.

(** An SDK that accepts every call. *)
Definition sdkAccepting : Sdk := fun c _ => Returned (defaultResp c).

(** An SDK that accepts every call except the S3 write of key [k]. *)
Definition sdkRejectingKey (k : string) (e : Exception) : Sdk :=
  fun c _ =>
    match c as c0 return Outcome (RespOf c0) with
    | PutObjectCommand _ key _ _ => if key =? k then Thrown e else Returned tt
    | c' => Returned (defaultResp c')
    end.

Definition sampleRuntime : Runtime :=
  {| base64 := fun s => s;
     JSON_stringify := fun _ => "null";
     JSON_parse := fun _ => Returned JNull;
     blobUrl := fun c p => "https://account.blob.core.windows.net/" ++ c ++ "/" ++ p |}.

Definition awsProvider : ProviderObj := awsInstance0.
Definition azureProvider : ProviderObj := {| address := 0; class := Azure; config := azureConfig |}.

Definition modelOptions (r : option string) : MLModelOptions :=
  {| modelId := "test-model"; version := None; runtime := r |}.

Definition weightsFile : ModelFile := {| file_path := "model.pth"; content := "weights" |}.
Definition labelsFile : ModelFile := {| file_path := "labels.txt"; content := "labels" |}.

(** The claim about [deployModel] in the words of the specification: the
    uploads issued are exactly one per file, and exactly one registration
    call is issued, whose artifact reference is the locator of the first
    file. *)
Definition claimedDeployBehaviour (rt : Runtime) (this : ProviderObj)
    (options : MLModelOptions) (files : list ModelFile) (sdk : Sdk) : Prop :=
  let calls := issued (invoke rt this (op_deployModel options files)) sdk [] in
  filter isUpload calls = uploadsFor (class this) options files /\
  exists first reg,
    hd_error files = Some first /\
    filter isRegistration calls = [reg] /\
    artifactRef reg = Some (locatorOf rt (class this) (artifactOptions options first)).

(** The runtime names with an entry in the AWS table. *)
Definition recognizedRuntimes : list string := map fst AWSProvider.runtimeMap.

(** The reference used when the runtime is ['pytorch']. *)
Definition pytorchReference (c : ProviderClass) : option PropValue :=
  match c with
  | AWS => AWSProvider.getModelImage "pytorch"
  | Azure => Some (OwnString "pytorch")
  end.

(** The registration call of [deployModel], as each provider builds it. *)
Definition registrationCall (rt : Runtime) (c : ProviderClass) (options : MLModelOptions)
    (files : list ModelFile) : SdkCall :=
  let first :=
    option_map (fun f => locatorOf rt c (artifactOptions options f)) (hd_error files) in
  match c with
  | AWS =>
      CreateModelCommand (modelId options)
        (Some {| Image := AWSProvider.getModelImage (Js.orElse (runtime options) "pytorch");
                 ModelDataUrl := first |})
  | Azure =>
      ml_models_createOrUpdate AzureProvider.resourceGroup (modelId options) first
        (Js.orElse (runtime options) "pytorch") (Js.orElse (version options) "1.0")
  end.

(** The claim about the runtime default in the words of the specification:
    for a runtime name that is not recognized, every registration call of
    [deployModel] carries the reference used for ['pytorch']. *)
Definition claimedRuntimeDefault (rt : Runtime) (this : ProviderObj)
    (options : MLModelOptions) (files : list ModelFile) (sdk : Sdk) : Prop :=
  forall r reg,
    runtime options = Some r ->
    ~ In r recognizedRuntimes ->
    In reg (filter isRegistration
              (issued (invoke rt this (op_deployModel options files)) sdk [])) ->
    runtimeRef reg = pytorchReference (class this).

Definition testInstanceParams : ComputeOptions :=
  {| name := "test-instance"; instanceType := "t2.micro"; imageId := "ami-12345";
     userData := None |}.

Definition authFailure : Exception :=
  PlainError "AuthFailure" "AWS was not able to validate the provided access credentials".

(** The environment set up for the tests of the repository. *)
Definition testEnvironment (variable : string) : option string :=
  if variable =? "CLOUD_PROVIDER" then Some "aws"
  else if variable =? "CLOUD_REGION" then Some "us-east-1"
  else if variable =? "AWS_ACCESS_KEY_ID" then Some "test-key"
  else if variable =? "AWS_SECRET_ACCESS_KEY" then Some "test-secret"
  else if variable =? "AZURE_TENANT_ID" then Some "test-tenant"
  else if variable =? "AZURE_CLIENT_ID" then Some "test-client"
  else if variable =? "AZURE_CLIENT_SECRET" then Some "test-secret"
  else if variable =? "AZURE_SUBSCRIPTION_ID" then Some "test-subscription"
  else if variable =? "AZURE_STORAGE_CONNECTION_STRING" then Some "test-connection-string"
  else None.

(** An outside world whose [process.env] is [env]. *)
Definition sdkWithEnv (env : string -> option string) : Sdk :=
  fun c _ =>
    match c as c0 return Outcome (RespOf c0) with
    | process_env variable => Returned (env variable)
    | c' => Returned (defaultResp c')
    end.

Definition freshLoader : ConfigLoader.Loader := {| ConfigLoader.cached := None |}.
Definition loadedLoader : ConfigLoader.Loader := {| ConfigLoader.cached := Some awsConfig |}.

Definition azureConfigFromEnv : CloudConfig :=
  {| provider := "azure";
     credentials :=
       {| region := "us-east-1";
          aws := None;
          azure := azure (credentials azureConfig) |} |}.

(* ===================================================================== *)
(** * Vocabulary of the further properties *)
(* ===================================================================== *)

(** ** Footprints *)

(** Running [m] appends to the trace only calls that satisfy [P]. *)
Definition emitsOnly {A} (P : SdkCall -> Prop) (m : Async A) : Prop :=
  forall sdk tr, exists rest, snd (m sdk tr) = (tr ++ rest)%list /\ Forall P rest.

(** The vendor whose SDK a call belongs to; [None] for the Node runtime. *)
Definition vendorOf (c : SdkCall) : option ProviderClass :=
  match c with
  | RunInstancesCommand _ _ _ _ | DescribeInstancesCommand _ | TerminateInstancesCommand _
  | PutObjectCommand _ _ _ _ | GetObjectCommand _ _ | DeleteObjectCommand _ _
  | CreateModelCommand _ _ | InvokeEndpointCommand _ _ => Some AWS
  | vm_beginCreateOrUpdate _ _ _ _ _ _ | vm_pollUntilDone _ _ | vm_instanceView _ _
  | vm_get _ _ | vm_beginDelete_pollUntilDone _ _ | vm_list _
  | blob_upload _ _ _ _ _ | blob_download _ _ _ | blob_delete _ _ | blob_getProperties
  | ml_models_createOrUpdate _ _ _ _ _
  | ml_onlineEndpoints_beginCreateOrUpdate_pollUntilDone _ _ _ _
  | ml_onlineEndpoints_get _ _ | ml_models_list _ => Some Azure
  | fetch_POST _ _ _ _ | Date_now | process_env _ => None
  end.

(** The vendor client a call goes through; [fetch] posts to the scoring
    endpoint of the ML service; the clock and the environment have none. *)
Definition clientOf (c : SdkCall) : option CloudService :=
  match c with
  | RunInstancesCommand _ _ _ _ | DescribeInstancesCommand _ | TerminateInstancesCommand _
  | vm_beginCreateOrUpdate _ _ _ _ _ _ | vm_pollUntilDone _ _ | vm_instanceView _ _
  | vm_get _ _ | vm_beginDelete_pollUntilDone _ _ | vm_list _ => Some compute
  | PutObjectCommand _ _ _ _ | GetObjectCommand _ _ | DeleteObjectCommand _ _
  | blob_upload _ _ _ _ _ | blob_download _ _ _ | blob_delete _ _
  | blob_getProperties => Some storage
  | CreateModelCommand _ _ | InvokeEndpointCommand _ _
  | ml_models_createOrUpdate _ _ _ _ _
  | ml_onlineEndpoints_beginCreateOrUpdate_pollUntilDone _ _ _ _
  | ml_onlineEndpoints_get _ _ | ml_models_list _
  | fetch_POST _ _ _ _ => Some ml
  | Date_now | process_env _ => None
  end.

Definition isEnvRead (c : SdkCall) : bool :=
  match c with
  | process_env _ => true
  | _ => false
  end.

(** The services an operation may touch: its own, and storage as well for
    [deployModel], which uploads the artifacts. *)
Definition mayTouch (op : Operation) (s : CloudService) : Prop :=
  s = serviceOf op \/
  (s = storage /\ match op with op_deployModel _ _ => True | _ => False end).

(** What a call issued on behalf of [op] by a provider of class [cls] must
    look like. *)
Definition withinFootprint (cls : ProviderClass) (op : Operation) (c : SdkCall) : Prop :=
  isEnvRead c = false /\
  (forall v, vendorOf c = Some v -> v = cls) /\
  (forall s, clientOf c = Some s -> mayTouch op s).

(** ** Environment *)

(** [sdk] answers every read of [process.env] from the fixed table [env]. *)
Definition envIs (sdk : Sdk) (env : string -> option string) : Prop :=
  forall v tr, sdk (process_env v) tr = Returned (env v).

(** A variable is set when it is present and not empty. *)
Definition isSet (env : string -> option string) (v : string) : bool :=
  match env v with
  | Some s => Js.truthy s
  | None => false
  end.

Definition valueOf (env : string -> option string) (v : string) : string :=
  match env v with
  | Some s => s
  | None => ""
  end.

(** The variables [loadConfig] requires for a provider, in reading order. *)
Definition requiredVariables (p : string) : list string :=
  if p =? "aws" then ["AWS_ACCESS_KEY_ID"; "AWS_SECRET_ACCESS_KEY"]
  else if p =? "azure" then
    ["AZURE_TENANT_ID"; "AZURE_CLIENT_ID"; "AZURE_CLIENT_SECRET";
     "AZURE_SUBSCRIPTION_ID"; "AZURE_STORAGE_CONNECTION_STRING"]
  else [].

(** The provider [loadConfig] settles on. *)
Definition selectedProvider (env : string -> option string)
    (arg : option CloudProvider) : string :=
  Js.toLowerCase
    (if ConfigLoader.absent arg then Js.orElse (env "CLOUD_PROVIDER") "aws"
     else Js.interp arg).

(** The variables read before the credentials. *)
Definition headerVariables (arg : option CloudProvider) : list string :=
  ((if ConfigLoader.absent arg then ["CLOUD_PROVIDER"] else []) ++ ["CLOUD_REGION"])%list.

(** Reading [vars] in order, stopping after the first one that is not set. *)
Fixpoint readUntilUnset (env : string -> option string) (vars : list string) : list string :=
  match vars with
  | [] => []
  | v :: rest => v :: (if isSet env v then readUntilUnset env rest else [])
  end.

Definition firstUnset (env : string -> option string) (vars : list string) : option string :=
  find (fun v => negb (isSet env v)) vars.

(** A configuration with a supported provider value, exactly the matching
    credential block, and no empty field. *)
Definition completeConfig (c : CloudConfig) : bool :=
  Js.truthy (region (credentials c)) &&
  match aws (credentials c), azure (credentials c) with
  | Some a, None =>
      (provider c =? "aws") && Js.truthy (accessKeyId a) && Js.truthy (secretAccessKey a)
  | None, Some z =>
      (provider c =? "azure") && Js.truthy (tenantId z) && Js.truthy (clientId z) &&
      Js.truthy (clientSecret z) && Js.truthy (subscriptionId z) &&
      Js.truthy (storageConnectionString z)
  | _, _ => false
  end.

(** The class the factory instantiates for a provider value. *)
Definition classFor (p : string) : ProviderClass :=
  if p =? "aws" then AWS else Azure.

(** Every variable [loadConfig] can read. *)
Definition knownVariables : list string :=
  ["CLOUD_PROVIDER"; "CLOUD_REGION";
   "AWS_ACCESS_KEY_ID"; "AWS_SECRET_ACCESS_KEY";
   "AZURE_TENANT_ID"; "AZURE_CLIENT_ID"; "AZURE_CLIENT_SECRET";
   "AZURE_SUBSCRIPTION_ID"; "AZURE_STORAGE_CONNECTION_STRING"].

Definition isKnownRead (c : SdkCall) : Prop :=
  match c with
  | process_env v => In v knownVariables
  | _ => False
  end.

Definition nl : string := String (ascii_of_nat 10) EmptyString.

(** [ConfigLoader.generateEnvExample] *)
Definition generateEnvExample : string :=
  String.concat nl
    [ "# Cloud Provider Configuration";
      "# Specify the cloud provider to use (aws or azure)";
      "CLOUD_PROVIDER=aws";
      "CLOUD_REGION=us-east-1";
      "";
      "# AWS Credentials";
      "AWS_ACCESS_KEY_ID=your-access-key-id";
      "AWS_SECRET_ACCESS_KEY=your-secret-access-key";
      "";
      "# Azure Credentials";
      "AZURE_TENANT_ID=your-tenant-id";
      "AZURE_CLIENT_ID=your-client-id";
      "AZURE_CLIENT_SECRET=your-client-secret";
      "AZURE_SUBSCRIPTION_ID=your-subscription-id";
      "AZURE_STORAGE_CONNECTION_STRING=your-storage-connection-string";
      "" ].

(** The lines of a text. *)
Fixpoint linesFrom (acc : string) (s : string) : list string :=
  match s with
  | EmptyString => [acc]
  | String c r =>
      if Ascii.eqb c (ascii_of_nat 10) then acc :: linesFrom "" r
      else linesFrom (acc ++ String c EmptyString) r
  end.

Definition lines (s : string) : list string := linesFrom "" s.

(** A line [NAME=value] with a non-empty value assigns [NAME]. *)
Definition assigns (v : string) (line : string) : bool :=
  String.prefix (v ++ "=") line && (String.length (v ++ "=") <? String.length line)%nat.

(** The loader holds no configuration or a complete one. *)
Definition cacheComplete (this : ConfigLoader.Loader) : Prop :=
  match ConfigLoader.cached this with
  | Some c => completeConfig c = true
  | None => True
  end.

(** [loadConfig] will consult the environment: nothing is cached, or a
    provider argument is given. *)
Definition consultsEnvironment (this : ConfigLoader.Loader)
    (arg : option CloudProvider) : Prop :=
  ConfigLoader.cached this = None \/ ConfigLoader.absent arg = false.

(** The calls [loadConfig] adds to the trace. *)
Definition issuedByLoad (this : ConfigLoader.Loader) (arg : option CloudProvider)
    (sdk : Sdk) (tr : Trace) : list SdkCall :=
  skipn (List.length tr) (snd (ConfigLoader.loadConfig this arg sdk tr)).

(** ** Factory *)

(** The cached object, if any, was handed out by the allocator. *)
Definition storeOk (st : CloudProviderFactory.Store) : Prop :=
  match CloudProviderFactory.currentProvider st with
  | Some p => address p < CloudProviderFactory.nextAddress st
  | None => True
  end.

(** ** Provider operations *)





(** The Azure ML online endpoint a call addresses: resource group and name. *)
Definition endpointOf (c : SdkCall) : option (string * string) :=
  match c with
  | ml_onlineEndpoints_beginCreateOrUpdate_pollUntilDone rg n _ _ => Some (rg, n)
  | ml_onlineEndpoints_get rg n => Some (rg, n)
  | _ => None
  end.

(** Calls that address an endpoint address the endpoint of model [m]. *)
Definition addressesEndpointOf (m : string) (c : SdkCall) : Prop :=
  forall e, endpointOf c = Some e -> e = (AzureProvider.resourceGroup, m ++ "-endpoint").

Definition isClockRead (c : SdkCall) : bool :=
  match c with
  | Date_now => true
  | _ => false
  end.

(** An SDK for an Azure inference whose scoring endpoint answers with HTTP
    status 503. *)
Definition sdkScoringUnavailable : Sdk :=
  fun c _ =>
    match c as c0 return Outcome (RespOf c0) with
    | ml_onlineEndpoints_get _ _ =>
        Returned {| scoringUri := Some "https://score.example/score";
                    authToken := Some "token" |}
    | fetch_POST _ _ _ _ =>
        Returned {| ok := false; http_status := 503; json := Returned JNull |}
    | c' => Returned (defaultResp c')
    end.

(* ===================================================================== *)
(** * Properties *)
(* ===================================================================== *)

(** ** Strings *)

Lemma prefix_iff_app (p s : string) :
  String.prefix p s = true <-> exists b, s = p ++ b.
Proof.
  revert s; induction p as [|c p IH]; intros s.
  - split; [intros _; now exists s | intros _; now destruct s].
  - destruct s as [|d s]; simpl.
    + split; [discriminate | intros [b Hb]; discriminate].
    + destruct (Ascii.ascii_dec c d) as [->|Hne].
      * rewrite IH. split; intros [b Hb]; exists b; [now subst | now inversion Hb].
      * split; [discriminate | intros [b Hb]; inversion Hb; congruence].
Qed.

Lemma includes_iff_contains (s w : string) :
  Js.includes s w = true <-> contains s w.
Proof.
  unfold contains. induction s as [|c s IH].
  - cbn [Js.includes]. rewrite orb_false_r, prefix_iff_app. split.
    + intros [b Hb]. now exists "", b.
    + intros [a [b Hab]]. destruct a; simpl in Hab.
      * now exists b.
      * discriminate.
  - cbn [Js.includes]. rewrite orb_true_iff, IH, prefix_iff_app. split.
    + intros [[b Hb] | [a [b Hab]]].
      * now exists "", b.
      * exists (String c a), b. simpl. now rewrite Hab.
    + intros [a [b Hab]]. destruct a as [|d a]; simpl in Hab.
      * left. now exists b.
      * right. inversion Hab. now exists a, b.
Qed.

Lemma toUpperCase_aws : Js.toUpperCase "aws" = "AWS".
Proof. reflexivity. Qed.

Lemma toUpperCase_azure : Js.toUpperCase "azure" = "AZURE".
Proof. reflexivity. Qed.

Lemma toUpperCase_length (s : string) :
  String.length (Js.toUpperCase s) = String.length s.
Proof.
  unfold Js.toUpperCase.
  induction s; cbn [Js.mapString String.length]; congruence.
Qed.

(** ** errors.ts *)

Lemma fromError_tagged (e : Exception) (p : CloudProvider) (s : CloudService) :
  instanceofCloudProviderError (fromError e p s) = true.
Proof. reflexivity. Qed.

Lemma wrapProviderOperation_success {T} (operation : Async T) p s sdk tr v tr' :
  operation sdk tr = (Returned v, tr') ->
  wrapProviderOperation operation p s sdk tr = (Returned v, tr').
Proof. intros H. unfold wrapProviderOperation, tryCatch. now rewrite H. Qed.

(** C5. When the wrapped operation fails with [e]: if [e] is already a
    [CloudProviderError], [wrapProviderOperation] throws [e] itself, unchanged;
    otherwise it throws a new [CloudProviderError] tagged with the given
    provider and service, whose message is the upper-cased provider name, a
    space, the service name, [" error: "] and the message of [e], and whose
    [originalError] is [e].  The calls recorded by the operation are kept. *)
Theorem wrapProviderOperation_failure {T} (operation : Async T)
    (p : CloudProvider) (s : CloudService) (sdk : Sdk) (tr tr' : Trace) (e : Exception) :
  operation sdk tr = (Thrown e, tr') ->
  (instanceofCloudProviderError e = true ->
     wrapProviderOperation operation p s sdk tr = (Thrown e, tr')) /\
  (instanceofCloudProviderError e = false ->
     wrapProviderOperation operation p s sdk tr =
       (Thrown (CloudProviderError
                  (Js.toUpperCase p ++ " " ++ serviceName s ++ " error: " ++ errMessage e)
                  p s (Some e)), tr')).
Proof.
  intros H. unfold wrapProviderOperation, tryCatch. rewrite H.
  split; intros Hi; rewrite Hi; reflexivity.
Qed.

Lemma wrapProviderOperation_failure_witness :
  wrapProviderOperation (send (GetObjectCommand "b" "k")) "aws" storage
      (sdkRejecting (PlainError "NoSuchKey" "missing")) [] =
    (Thrown (CloudProviderError "AWS storage error: missing" "aws" storage
               (Some (PlainError "NoSuchKey" "missing"))),
     [GetObjectCommand "b" "k"]).
Proof.
  exact (proj2 (@wrapProviderOperation_failure _ (send (GetObjectCommand "b" "k"))
                  "aws" storage (sdkRejecting (PlainError "NoSuchKey" "missing"))
                  [] [GetObjectCommand "b" "k"] (PlainError "NoSuchKey" "missing")
                  eq_refl) eq_refl).
Defined.

Example wrapProviderOperation_no_double_wrap :
  let e := CloudProviderError "AZURE ml error: quota" "azure" ml None in
  wrapProviderOperation (send (vm_list "rg")) "aws" compute (sdkRejecting e) [] =
    (Thrown e, [vm_list "rg"]).
Proof. reflexivity. Qed.

(** ** healthCheck *)

Lemma overallStatus_healthy_iff (s : ServiceFlags) :
  overallStatus s = healthy <->
  svc_compute s = true /\ svc_storage s = true /\ svc_ml s = true.
Proof.
  destruct s as [[] [] []]; cbn; intuition discriminate.
Qed.

Ltac run_probe sdk c tr :=
  let o := fresh "o" in
  unfold accepted; destruct (sdk c tr) as [o|o]; cbn.

(** C2. On either provider and for every behaviour of the vendor SDK,
    [healthCheck] returns (it never throws); it issues its three probes in
    order whatever the answers to the earlier ones; each flag of [services]
    is true exactly when its own probe did not throw; and [status] is
    ['healthy'] if and only if the three flags are all true. *)
Theorem healthCheck_total_and_independent (this : ProviderObj) (sdk : Sdk) (tr : Trace) :
  exists h : Health,
    invokeHealthCheck this sdk tr = (Returned h, (tr ++ probes (class this))%list) /\
    Object_values (services h) = acceptedEach sdk tr (probes (class this)) /\
    (health_status h = healthy <->
       svc_compute (services h) = true /\
       svc_storage (services h) = true /\
       svc_ml (services h) = true).
Proof.
  unfold invokeHealthCheck. destruct (class this); cbn [probes acceptedEach].
  - unfold AWSProvider.healthCheck, bind, tryCatch, send, ret.
    run_probe sdk (DescribeInstancesCommand None) tr;
      run_probe sdk (GetObjectCommand "test-bucket" "test-file")
                (tr ++ [DescribeInstancesCommand None])%list;
      run_probe sdk (CreateModelCommand "test-model" None)
                ((tr ++ [DescribeInstancesCommand None]) ++
                 [GetObjectCommand "test-bucket" "test-file"])%list;
      eexists; (split; [rewrite <- !app_assoc; reflexivity |]);
      (split; [reflexivity | cbn; intuition congruence]).
  - unfold AzureProvider.healthCheck, bind, tryCatch, send, ret.
    run_probe sdk (vm_list AzureProvider.resourceGroup) tr;
      run_probe sdk blob_getProperties
                (tr ++ [vm_list AzureProvider.resourceGroup])%list;
      run_probe sdk (ml_models_list AzureProvider.resourceGroup)
                ((tr ++ [vm_list AzureProvider.resourceGroup]) ++ [blob_getProperties])%list;
      eexists; (split; [rewrite <- !app_assoc; reflexivity |]);
      (split; [reflexivity | cbn; intuition congruence]).
Qed.

Example healthCheck_ml_down :
  AWSProvider.healthCheck sdkWithoutML [] =
    (Returned {| health_status := unhealthy;
                 services := {| svc_compute := true; svc_storage := true; svc_ml := false |} |},
     probes AWS).
Proof. reflexivity. Qed.

(** ** Vendor status to [ComputeInstance.status] *)

Lemma find_isPowerState (sts : list InstanceViewStatus) :
  match find AzureProvider.isPowerState sts with
  | Some s => code s = firstPowerStateCode sts /\ firstPowerStateCode sts <> None
  | None => firstPowerStateCode sts = None
  end.
Proof.
  induction sts as [|s sts IH]; cbn [find firstPowerStateCode]; [reflexivity|].
  unfold AzureProvider.isPowerState at 1, Js.startsWith.
  destruct (code s) as [c|] eqn:Hc.
  - destruct (String.prefix "PowerState/" c).
    + rewrite Hc. split; [reflexivity | discriminate].
    + exact IH.
  - exact IH.
Qed.

Lemma mapAzureStatus_by_code (view : option VirtualMachineInstanceView) :
  AzureProvider.mapAzureStatus view =
    match powerStateCode view with
    | Some c =>
        if Js.includes c "running" then running
        else if Js.includes c "stopped" then stopped
        else terminated
    | None => terminated
    end.
Proof.
  unfold AzureProvider.mapAzureStatus, powerStateCode.
  destruct view as [v|]; [|reflexivity].
  destruct (statuses v) as [sts|]; [|reflexivity].
  pose proof (find_isPowerState sts) as H.
  unfold AzureProvider.codeIncludes.
  destruct (find AzureProvider.isPowerState sts) as [s|].
  - destruct H as [H1 H2]. rewrite <- H1. destruct (code s); [reflexivity | congruence].
  - now rewrite H.
Qed.

(** C8. AWS: [mapEC2Status] yields ['running'] exactly for the EC2 state name
    ['running'], ['stopped'] exactly for ['stopped'], and ['terminated'] for
    every other or absent state name.  Azure: the status computed by
    [mapAzureVMToComputeInstance] is ['running'] exactly when the instance
    view has a power-state code containing ['running'], ['stopped'] exactly
    when it has one containing ['stopped'] and not ['running'], and
    ['terminated'] in every other case, including an absent instance view,
    absent statuses and no power-state code.  In particular ['pending'] maps
    to ['terminated'] on both. *)
Theorem status_mapping_defaults_to_terminated :
  (forall s : option string,
     (AWSProvider.mapEC2Status s = running <-> s = Some "running") /\
     (AWSProvider.mapEC2Status s = stopped <-> s = Some "stopped") /\
     (AWSProvider.mapEC2Status s = terminated <->
        s <> Some "running" /\ s <> Some "stopped")) /\
  (forall view : option VirtualMachineInstanceView,
     (AzureProvider.mapAzureStatus view = running <->
        exists c, powerStateCode view = Some c /\ contains c "running") /\
     (AzureProvider.mapAzureStatus view = stopped <->
        exists c, powerStateCode view = Some c /\
                  contains c "stopped" /\ ~ contains c "running") /\
     (AzureProvider.mapAzureStatus view = terminated <->
        forall c, powerStateCode view = Some c ->
                  ~ contains c "running" /\ ~ contains c "stopped")) /\
  (forall (i : EC2Instance) (vm : VirtualMachine) (view : option VirtualMachineInstanceView),
     status (AWSProvider.mapEC2InstanceToComputeInstance i) =
       AWSProvider.mapEC2Status (StateName i) /\
     status (AzureProvider.mapAzureVMToComputeInstance vm view) =
       AzureProvider.mapAzureStatus view) /\
  AWSProvider.mapEC2Status (Some "pending") = terminated /\
  AWSProvider.mapEC2Status None = terminated /\
  AzureProvider.mapAzureStatus
    (Some {| statuses := Some [ {| code := Some "PowerState/pending" |} ] |}) = terminated /\
  AzureProvider.mapAzureStatus None = terminated.
Proof.
  split; [|split; [|split; [|repeat split]]].
  - intros s. unfold AWSProvider.mapEC2Status.
    destruct s as [s|].
    + destruct (String.eqb_spec s "running") as [->|Hr].
      * repeat split; try discriminate; try reflexivity.
        intros [H _]. congruence.
      * destruct (String.eqb_spec s "stopped") as [->|Hs].
        -- repeat split; try discriminate; try reflexivity.
           intros [_ H]. congruence.
        -- repeat split; try discriminate; try congruence.
    + repeat split; try discriminate.
  - intros view. rewrite mapAzureStatus_by_code.
    destruct (powerStateCode view) as [c|].
    + pose proof (includes_iff_contains c "running") as Hr.
      pose proof (includes_iff_contains c "stopped") as Hs.
      destruct (Js.includes c "running"), (Js.includes c "stopped");
        (split; [|split]); split;
        try discriminate; try reflexivity;
        try (intros _; exists c; intuition congruence);
        try (intros [c' [Hc Hx]]; inversion Hc; subst c'; intuition congruence);
        try (intros H; destruct (H c eq_refl); intuition congruence);
        try (intros _ c' Hc; inversion Hc; subst c'; intuition congruence).
    + (split; [|split]); split;
        try discriminate; try reflexivity;
        try (intros [c [Hc _]]; discriminate);
        try (intros _ c Hc; discriminate).
  - intros i vm view. split; reflexivity.
Qed.

(** ** Provider factory *)

Module FactoryFacts.
Import CloudProviderFactory.

Section WithClients.

Variable newClients : ProviderClass -> CloudConfig -> Outcome unit.

Lemma getProvider_hit (config : CloudConfig) (st : Store) (p : ProviderObj) :
  currentProvider st = Some p ->
  getProvider newClients config st = (Returned p, st).
Proof. intros H. unfold getProvider. now rewrite H. Qed.

(** A successful [getProvider] leaves the returned instance in the cache. *)
Lemma getProvider_caches (config : CloudConfig) (st st' : Store) (p : ProviderObj) :
  getProvider newClients config st = (Returned p, st') ->
  currentProvider st' = Some p.
Proof.
  unfold getProvider, new_AWSProvider, new_AzureProvider.
  destruct (currentProvider st) as [q|] eqn:Hc.
  - intros H. inversion H; subst. exact Hc.
  - destruct (provider config =? "aws").
    + destruct (aws (credentials config)); [|discriminate].
      destruct (newClients AWS config); [|discriminate].
      intros H. inversion H; subst. reflexivity.
    + destruct (provider config =? "azure"); [|discriminate].
      destruct (azure (credentials config)); [|discriminate].
      destruct (newClients Azure config); [|discriminate].
      intros H. inversion H; subst. reflexivity.
Qed.

Lemma getProviderEach_hit (configs : list CloudConfig) (st : Store) (p : ProviderObj) :
  currentProvider st = Some p ->
  getProviderEach newClients configs st = (map (fun _ => Returned p) configs, st).
Proof.
  intros H. induction configs as [|c rest IH]; cbn [getProviderEach map].
  - reflexivity.
  - rewrite (getProvider_hit c st H), IH. reflexivity.
Qed.

End WithClients.
End FactoryFacts.

(** C4. The cache holds at most one instance (it is an optional value).
    After a successful [getProvider] that returned [p], [p] is the cached
    instance, and every later [getProvider], whatever configurations are
    passed, returns this same [p], constructs nothing and leaves the factory
    as it is; [clearProvider] empties the cache. *)
Theorem getProvider_reuses_cached_instance
    (newClients : ProviderClass -> CloudConfig -> Outcome unit)
    (config : CloudConfig) (st st' : CloudProviderFactory.Store) (p : ProviderObj) :
  CloudProviderFactory.getProvider newClients config st = (Returned p, st') ->
  CloudProviderFactory.currentProvider st' = Some p /\
  (forall later : list CloudConfig,
     CloudProviderFactory.getProviderEach newClients later st' =
       (map (fun _ => Returned p) later, st')) /\
  CloudProviderFactory.currentProvider (CloudProviderFactory.clearProvider st') = None.
Proof.
  intros H.
  pose proof (FactoryFacts.getProvider_caches newClients config st H) as Hc.
  split; [exact Hc | split; [|reflexivity]].
  intros later. now apply FactoryFacts.getProviderEach_hit.
Qed.

Lemma getProvider_reuses_cached_instance_witness :
  CloudProviderFactory.getProviderEach clientsAccept
      [azureConfig; invalidConfig; awsConfig] storeWithAws =
    ([Returned awsInstance0; Returned awsInstance0; Returned awsInstance0], storeWithAws).
Proof.
  exact (proj1 (proj2 (@getProvider_reuses_cached_instance clientsAccept awsConfig
                         emptyStore storeWithAws awsInstance0 eq_refl))
               [azureConfig; invalidConfig; awsConfig]).
Defined.

(** C6. With an empty cache, a configuration whose [provider] is neither
    ['aws'] nor ['azure'] makes [getProvider] throw
    [Error("Unsupported cloud provider: <value>")]; the store is returned
    unchanged: nothing is allocated and the cache is still empty. *)
Theorem getProvider_unsupported
    (newClients : ProviderClass -> CloudConfig -> Outcome unit)
    (config : CloudConfig) (st : CloudProviderFactory.Store) :
  CloudProviderFactory.currentProvider st = None ->
  provider config <> "aws" ->
  provider config <> "azure" ->
  CloudProviderFactory.getProvider newClients config st =
    (Thrown (new_Error ("Unsupported cloud provider: " ++ provider config)), st) /\
  CloudProviderFactory.currentProvider st = None.
Proof.
  intros Hc Haws Hazure. split; [|exact Hc].
  unfold CloudProviderFactory.getProvider. rewrite Hc.
  destruct (String.eqb_spec (provider config) "aws"); [contradiction|].
  destruct (String.eqb_spec (provider config) "azure"); [contradiction|].
  reflexivity.
Qed.

Lemma getProvider_unsupported_witness :
  CloudProviderFactory.getProvider clientsAccept invalidConfig emptyStore =
    (Thrown (new_Error "Unsupported cloud provider: invalid"), emptyStore) /\
  CloudProviderFactory.currentProvider emptyStore = None.
Proof.
  apply (@getProvider_unsupported clientsAccept invalidConfig emptyStore);
    [reflexivity | discriminate | discriminate].
Defined.

(** C7. For a supported provider value with a valid matching credential
    block, [clearProvider] followed by [getProvider config] returns an
    instance, whatever was cached before; the instance holds the
    configuration of this call, so [getConfig().provider] is the requested
    value, and it becomes the cached instance. *)
Theorem getProvider_after_clear
    (newClients : ProviderClass -> CloudConfig -> Outcome unit)
    (config : CloudConfig) (st : CloudProviderFactory.Store) :
  validConfig newClients config ->
  exists (p : ProviderObj) (st' : CloudProviderFactory.Store),
    CloudProviderFactory.getProvider newClients config
      (CloudProviderFactory.clearProvider st) = (Returned p, st') /\
    getConfig p = config /\
    provider (getConfig p) = provider config /\
    CloudProviderFactory.currentProvider st' = Some p.
Proof.
  unfold validConfig, CloudProviderFactory.getProvider, CloudProviderFactory.clearProvider,
    CloudProviderFactory.new_AWSProvider, CloudProviderFactory.new_AzureProvider.
  cbn [CloudProviderFactory.currentProvider CloudProviderFactory.nextAddress].
  intros [[Hp [Hc Hn]] | [Hp [Hc Hn]]]; rewrite Hp;
    change ("aws" =? "aws") with true; change ("azure" =? "aws") with false;
    change ("azure" =? "azure") with true; cbv iota.
  - destruct (aws (credentials config)); [|congruence].
    destruct (newClients AWS config); [|discriminate].
    eexists; eexists; repeat split; exact Hp.
  - destruct (azure (credentials config)); [|congruence].
    destruct (newClients Azure config); [|discriminate].
    eexists; eexists; repeat split; exact Hp.
Qed.

Lemma getProvider_after_clear_witness :
  exists (p : ProviderObj) (st' : CloudProviderFactory.Store),
    CloudProviderFactory.getProvider clientsAccept azureConfig
      (CloudProviderFactory.clearProvider storeWithAws) = (Returned p, st') /\
    getConfig p = azureConfig /\
    provider (getConfig p) = provider azureConfig /\
    CloudProviderFactory.currentProvider st' = Some p.
Proof.
  apply (@getProvider_after_clear clientsAccept azureConfig storeWithAws).
  right. repeat split; discriminate.
Defined.

Example run_clearProvider_then_getProvider :
  CloudProviderFactory.getProvider clientsAccept azureConfig
    (CloudProviderFactory.clearProvider storeWithAws) =
  (Returned {| address := 1; class := Azure; config := azureConfig |},
   {| CloudProviderFactory.currentProvider :=
        Some {| address := 1; class := Azure; config := azureConfig |};
      CloudProviderFactory.nextAddress := 2 |}).
Proof. reflexivity. Qed.

(** ** Config loader *)

(** Every successful [loadConfig] leaves the returned configuration in the
    loader. *)
Lemma loadConfig_caches (this this' : ConfigLoader.Loader) (p : option CloudProvider)
    (sdk : Sdk) (tr tr' : Trace) (c : CloudConfig) :
  ConfigLoader.loadConfig this p sdk tr = (Returned c, this', tr') ->
  ConfigLoader.cached this' = Some c.
Proof.
  unfold ConfigLoader.loadConfig.
  destruct (ConfigLoader.cached this) as [c0|] eqn:Hc;
    [destruct (ConfigLoader.absent p)|].
  - intros H. inversion H; subst. exact Hc.
  - destruct (ConfigLoader.readFromEnvironment p sdk tr) as [[c1|e] tr1];
      intros H; inversion H; subst; reflexivity.
  - destruct (ConfigLoader.readFromEnvironment p sdk tr) as [[c1|e] tr1];
      intros H; inversion H; subst; reflexivity.
Qed.

Lemma loadConfig_hit (this : ConfigLoader.Loader) (sdk : Sdk) (tr : Trace) (c : CloudConfig) :
  ConfigLoader.cached this = Some c ->
  ConfigLoader.loadConfig this None sdk tr = (Returned c, this, tr).
Proof. intros H. unfold ConfigLoader.loadConfig. now rewrite H. Qed.

(** *** Traces only grow *)

Lemma extends_ret {A} (a : A) : extends (ret a).
Proof. intros sdk tr. exists []. cbn. now rewrite app_nil_r. Qed.

Lemma extends_throw {A} (e : Exception) : extends (@throw A e).
Proof. intros sdk tr. exists []. cbn. now rewrite app_nil_r. Qed.

Lemma extends_settle {A} (o : Outcome A) : extends (settle o).
Proof. intros sdk tr. exists []. cbn. now rewrite app_nil_r. Qed.

Lemma extends_send (c : SdkCall) : extends (send c).
Proof. intros sdk tr. now exists [c]. Qed.

Lemma extends_bind {A B} (m : Async A) (k : A -> Async B) :
  extends m -> (forall a, extends (k a)) -> extends (bind m k).
Proof.
  intros Hm Hk sdk tr. unfold bind.
  destruct (Hm sdk tr) as [r1 H1].
  destruct (m sdk tr) as [[a|e] tr1]; cbn [snd] in H1; subst tr1.
  - destruct (Hk a sdk (tr ++ r1)%list) as [r2 H2].
    exists (r1 ++ r2)%list. now rewrite H2, app_assoc.
  - now exists r1.
Qed.

Lemma extends_tryCatch {A} (body : Async A) (handler : Exception -> Async A) :
  extends body -> (forall e, extends (handler e)) -> extends (tryCatch body handler).
Proof.
  intros Hm Hk sdk tr. unfold tryCatch.
  destruct (Hm sdk tr) as [r1 H1].
  destruct (body sdk tr) as [[a|e] tr1]; cbn [snd] in H1; subst tr1.
  - now exists r1.
  - destruct (Hk e sdk (tr ++ r1)%list) as [r2 H2].
    exists (r1 ++ r2)%list. now rewrite H2, app_assoc.
Qed.

Lemma extends_send_first {B} (c : SdkCall) (k : RespOf c -> Async B) :
  (forall a, extends (k a)) ->
  forall sdk tr, exists rest, snd (bind (send c) k sdk tr) = (tr ++ c :: rest)%list.
Proof.
  intros Hk sdk tr. unfold bind, send.
  destruct (sdk c tr) as [a|e].
  - destruct (Hk a sdk (tr ++ [c])%list) as [r H].
    exists r. rewrite H, <- app_assoc. reflexivity.
  - now exists [].
Qed.

Ltac extends_step :=
  match goal with
  | |- extends (bind _ _) => apply extends_bind; [|intros ?]
  | |- extends (tryCatch _ _) => apply extends_tryCatch; [|intros ?]
  | |- extends (ret _) => apply extends_ret
  | |- extends (throw _) => apply extends_throw
  | |- extends (settle _) => apply extends_settle
  | |- extends (send _) => apply extends_send
  | |- extends (if ?b then _ else _) => destruct b
  | |- extends (match ?x with _ => _ end) => destruct x
  end.

Lemma extends_getRequiredEnv (name : string) : extends (ConfigLoader.getRequiredEnv name).
Proof.
  unfold ConfigLoader.getRequiredEnv, ConfigLoader.getEnv. repeat extends_step.
Qed.

(** With an explicit provider argument the loader starts by reading
    [CLOUD_REGION]: the environment is consulted again. *)
Lemma readFromEnvironment_reads (p : CloudProvider) (sdk : Sdk) (tr : Trace) :
  Js.truthy p = true ->
  exists rest, snd (ConfigLoader.readFromEnvironment (Some p) sdk tr) =
               (tr ++ process_env "CLOUD_REGION" :: rest)%list.
Proof.
  intros Hp. unfold ConfigLoader.readFromEnvironment, ConfigLoader.absent.
  rewrite Hp. cbn [negb Js.interp].
  unfold bind at 1. unfold ret at 1. unfold ConfigLoader.getEnv at 1.
  match goal with
  | |- exists rest, snd (bind (send ?c) ?k _ _) = _ => apply (@extends_send_first _ c k)
  end.
  intros r.
  repeat first [ apply extends_getRequiredEnv | extends_step ].
Qed.

(** C10. Once a [loadConfig] call has succeeded with configuration [c], a
    [loadConfig] call without provider argument returns [c] again, leaves the
    loader as it is and reads nothing, whatever the environment has become
    (the later call may face any SDK/environment and any history).  A call
    with a non-empty provider argument does consult the environment again
    (it reads [CLOUD_REGION] first) and, when it succeeds, its result
    replaces the cached configuration. *)
Theorem loadConfig_returns_cached
    (this this' : ConfigLoader.Loader) (p : option CloudProvider)
    (env : Sdk) (tr tr' : Trace) (c : CloudConfig) :
  ConfigLoader.loadConfig this p env tr = (Returned c, this', tr') ->
  (forall (env2 : Sdk) (tr2 : Trace),
     ConfigLoader.loadConfig this' None env2 tr2 = (Returned c, this', tr2)) /\
  (forall (q : CloudProvider) (env2 : Sdk) (tr2 : Trace),
     Js.truthy q = true ->
     (exists rest,
        snd (ConfigLoader.loadConfig this' (Some q) env2 tr2) =
          (tr2 ++ process_env "CLOUD_REGION" :: rest)%list) /\
     (forall c2 this2 tr3,
        ConfigLoader.loadConfig this' (Some q) env2 tr2 = (Returned c2, this2, tr3) ->
        ConfigLoader.readFromEnvironment (Some q) env2 tr2 = (Returned c2, tr3) /\
        ConfigLoader.cached this2 = Some c2)).
Proof.
  intros H. pose proof (loadConfig_caches _ _ _ _ H) as Hc.
  split.
  - intros env2 tr2. now apply loadConfig_hit.
  - intros q env2 tr2 Hq. unfold ConfigLoader.loadConfig.
    assert (Ha : ConfigLoader.absent (Some q) = false)
      by (unfold ConfigLoader.absent; now rewrite Hq).
    rewrite Hc, Ha.
    split.
    + destruct (readFromEnvironment_reads q env2 tr2 Hq) as [rest Hr].
      exists rest. rewrite <- Hr.
      destruct (ConfigLoader.readFromEnvironment (Some q) env2 tr2) as [[c1|e] t1];
        reflexivity.
    + intros c2 this2 tr3.
      destruct (ConfigLoader.readFromEnvironment (Some q) env2 tr2) as [[c1|e] t1];
        intros H2; inversion H2; subst; split; reflexivity.
Qed.

(** ** deployModel *)

Lemma uploadFile_run (rt : Runtime) (c : ProviderClass) (o : StorageOptions) (d : Buffer)
    (sdk : Sdk) (tr : Trace) :
  uploadFileOf rt c o d sdk tr =
    (match sdk (uploadCall c o d) tr with
     | Returned _ => Returned (locatorOf rt c o)
     | Thrown e => Thrown (new_Error ("Failed to upload file: " ++ errToString e))
     end,
     (tr ++ [uploadCall c o d])%list).
Proof.
  destruct c; cbn [uploadFileOf uploadCall locatorOf];
    unfold AWSProvider.uploadFile, AzureProvider.uploadFile, tryCatch, bind, send, ret, throw;
    match goal with |- context [sdk ?call tr] => destruct (sdk call tr) end;
    reflexivity.
Qed.

(** The joint upload of [deployModel]: one call per file, issued in array
    order whatever the answers; the result is the list of locators when every
    upload is accepted, and a plain [Error] otherwise. *)
Lemma promiseAll_uploads (rt : Runtime) (c : ProviderClass) (options : MLModelOptions)
    (files : list ModelFile) (sdk : Sdk) (tr : Trace) :
  exists o,
    promiseAll
      (map (fun file => uploadFileOf rt c (artifactOptions options file) (content file)) files)
      sdk tr = (o, (tr ++ uploadsFor c options files)%list) /\
    match o with
    | Returned l =>
        l = locatorsFor rt c options files /\
        allAccepted sdk tr (uploadsFor c options files) = true
    | Thrown e =>
        (exists m, e = new_Error m) /\
        allAccepted sdk tr (uploadsFor c options files) = false
    end.
Proof.
  revert tr. induction files as [|f files IH]; intros tr.
  - exists (Returned []). cbn. rewrite app_nil_r. auto.
  - cbn [map promiseAll uploadsFor locatorsFor].
    rewrite uploadFile_run.
    destruct (IH (tr ++ [uploadCall c (artifactOptions options f) (content f)])%list)
      as [o [Hrun Ho]].
    rewrite Hrun. rewrite <- app_assoc. cbn [app].
    unfold allAccepted in *. cbn [acceptedEach forallb]. unfold accepted at 1 2.
    destruct (sdk (uploadCall c (artifactOptions options f) (content f)) tr) as [r|e];
      cbn [isThrown negb andb].
    + destruct o as [l|e'].
      * eexists. split; [reflexivity|]. destruct Ho as [-> Ha]. split; [reflexivity | exact Ha].
      * eexists. split; [reflexivity|]. exact Ho.
    + eexists. split; [reflexivity|]. split; [eexists; reflexivity | reflexivity].
Qed.

Lemma hd_error_map {A B} (f : A -> B) (l : list A) :
  nth_error (map f l) 0 = option_map f (hd_error l).
Proof. destruct l; reflexivity. Qed.

Lemma skipn_length_app {A} (l r : list A) : skipn (List.length l) (l ++ r) = r.
Proof. induction l; cbn; auto. Qed.

(** The run of [deployModel] on either provider: the uploads of all files,
    then, only if every upload was accepted, the registration call and what
    follows it. *)
Lemma deployModel_run (rt : Runtime) (c : ProviderClass) (options : MLModelOptions)
    (files : list ModelFile) (sdk : Sdk) (tr : Trace) :
  exists out rest,
    deployModelOf rt c options files sdk tr =
      (out, (tr ++ uploadsFor c options files ++ rest)%list) /\
    plainFailure out /\
    filter isUpload rest = [] /\
    if allAccepted sdk tr (uploadsFor c options files)
    then filter isRegistration rest = [registrationCall rt c options files]
    else rest = [] /\ isThrown out = true.
Proof.
  destruct (promiseAll_uploads rt c options files sdk tr) as [o [Hrun Ho]].
  destruct c; cbn [deployModelOf registrationCall].
  - unfold AWSProvider.deployModel. unfold bind at 1.
    cbv beta delta [uploadFileOf artifactOptions] iota in Hrun. rewrite Hrun.
    destruct o as [l|e].
    + destruct Ho as [-> Ha]. rewrite Ha.
      unfold tryCatch, bind, send, ret, throw.
      unfold locatorsFor. rewrite hd_error_map.
      match goal with |- context [sdk ?call ?t] => destruct (sdk call t) end;
        eexists; eexists; (split; [rewrite <- app_assoc; reflexivity |]);
        cbn; repeat split; eauto.
    + destruct Ho as [Hm Ha]. rewrite Ha.
      exists (Thrown e), []. rewrite app_nil_r. cbn. auto.
  - unfold AzureProvider.deployModel. unfold tryCatch at 1. unfold bind at 1.
    cbv beta delta [uploadFileOf artifactOptions] iota in Hrun. rewrite Hrun.
    destruct o as [l|e].
    + destruct Ho as [-> Ha]. rewrite Ha.
      unfold bind, send, ret, throw.
      unfold locatorsFor. rewrite hd_error_map.
      match goal with |- context [sdk ?call ?t] => destruct (sdk call t) end;
        [ match goal with |- context [sdk ?call ?t] => destruct (sdk call t) end |];
        eexists; eexists;
        (split; [rewrite <- ?app_assoc; cbn [app]; rewrite <- ?app_assoc; reflexivity |]);
        cbn; repeat split; eauto.
    + destruct Ho as [Hm Ha]. rewrite Ha.
      eexists; exists []. rewrite app_nil_r. unfold throw.
      split; [reflexivity|].
      split; [eexists; reflexivity | auto].
Qed.

Lemma uploadsFor_are_uploads (c : ProviderClass) (options : MLModelOptions)
    (files : list ModelFile) :
  forallb isUpload (uploadsFor c options files) = true.
Proof.
  unfold uploadsFor. induction files as [|f fs IH]; [reflexivity|].
  cbn [map forallb]. rewrite IH. destruct c; reflexivity.
Qed.

(** C3 (amended).  On either provider, [deployModel] with N files first
    issues exactly N uploads, in array order, each to container
    ['model-artifacts'] under key [modelId/path]; nothing it issues afterwards
    is an upload.  If every upload is accepted it then issues exactly one
    registration call, whose only artifact reference is the locator of the
    first file (absent for an empty list).  If some upload is rejected it
    issues no further call, hence no registration, and throws. *)
Theorem deployModel_uploads_then_registers (rt : Runtime) (this : ProviderObj)
    (options : MLModelOptions) (files : list ModelFile) (sdk : Sdk) (tr : Trace) :
  exists out rest,
    invoke rt this (op_deployModel options files) sdk tr =
      (out, (tr ++ uploadsFor (class this) options files ++ rest)%list) /\
    List.length (uploadsFor (class this) options files) = List.length files /\
    forallb isUpload (uploadsFor (class this) options files) = true /\
    filter isUpload rest = [] /\
    if allAccepted sdk tr (uploadsFor (class this) options files)
    then
      exists reg,
        filter isRegistration rest = [reg] /\
        artifactRef reg =
          option_map (fun f => locatorOf rt (class this) (artifactOptions options f))
                     (hd_error files)
    else rest = [] /\ isThrown out = true.
Proof.
  destruct (deployModel_run rt (class this) options files sdk tr)
    as [out [rest [Hrun [_ [Hup Hreg]]]]].
  exists (match out with Returned s => Returned (res_string s) | Thrown e => Thrown e end), rest.
  split; [|split; [|split; [|split]]].
  - unfold invoke.
    destruct (class this); cbn [deployModelOf] in Hrun;
      unfold fmap, bind; rewrite Hrun; destruct out; reflexivity.
  - unfold uploadsFor. apply length_map.
  - apply uploadsFor_are_uploads.
  - exact Hup.
  - destruct (allAccepted sdk tr (uploadsFor (class this) options files)).
    + exists (registrationCall rt (class this) options files). split; [exact Hreg|].
      destruct (class this); reflexivity.
    + destruct Hreg as [-> Ht]. split; [reflexivity|]. now destruct out.
Qed.

Example deployModel_two_files_aws :
  issued (invoke sampleRuntime awsProvider
            (op_deployModel (modelOptions (Some "pytorch")) [weightsFile; labelsFile]))
         sdkAccepting [] =
    [ PutObjectCommand "model-artifacts" "test-model/model.pth" "weights" None;
      PutObjectCommand "model-artifacts" "test-model/labels.txt" "labels" None;
      CreateModelCommand "test-model"
        (Some {| Image := Some (OwnString
                   "763104351884.dkr.ecr.us-east-1.amazonaws.com/pytorch-inference:1.8.1-cpu-py36-ubuntu18.04");
                 ModelDataUrl := Some "s3://model-artifacts/test-model/model.pth" |}) ].
Proof. reflexivity. Qed.

(** C3 (as stated) fails on the code: with an empty file list the single
    registration call carries no artifact reference, and when the vendor
    rejects the upload of the second of two files no registration call is
    issued at all. *)
Lemma deployModel_claim_counterexample :
  ~ claimedDeployBehaviour sampleRuntime awsProvider (modelOptions (Some "pytorch")) []
      sdkAccepting /\
  ~ claimedDeployBehaviour sampleRuntime awsProvider (modelOptions (Some "pytorch"))
      [weightsFile; labelsFile]
      (sdkRejectingKey "test-model/labels.txt" (PlainError "AccessDenied" "Access Denied")).
Proof.
  split; intros [_ [first [reg [Hfirst [Hreg _]]]]].
  - discriminate Hfirst.
  - vm_compute in Hreg. discriminate Hreg.
Qed.

Lemma uploadsFor_no_registration (c : ProviderClass) (options : MLModelOptions)
    (files : list ModelFile) :
  filter isRegistration (uploadsFor c options files) = [].
Proof.
  unfold uploadsFor. induction files as [|f fs IH]; [reflexivity|].
  cbn [map filter]. destruct c; cbn; exact IH.
Qed.

Lemma invoke_deployModel_trace (rt : Runtime) (this : ProviderObj) (options : MLModelOptions)
    (files : list ModelFile) (sdk : Sdk) (tr : Trace) :
  snd (invoke rt this (op_deployModel options files) sdk tr) =
  snd (deployModelOf rt (class this) options files sdk tr).
Proof.
  unfold invoke. destruct (class this); cbn [deployModelOf]; unfold fmap, bind;
    match goal with |- context [?m sdk tr] => destruct (m sdk tr) as [[?|?] ?] end;
    reflexivity.
Qed.

(** The registration calls issued by [deployModel]: the one built from the
    options when all uploads are accepted, none otherwise. *)
Lemma deployModel_registrations (rt : Runtime) (this : ProviderObj) (options : MLModelOptions)
    (files : list ModelFile) (sdk : Sdk) (tr : Trace) :
  filter isRegistration (issued (invoke rt this (op_deployModel options files)) sdk tr) =
    if allAccepted sdk tr (uploadsFor (class this) options files)
    then [registrationCall rt (class this) options files]
    else [].
Proof.
  unfold issued. rewrite invoke_deployModel_trace.
  destruct (deployModel_run rt (class this) options files sdk tr)
    as [out [rest [Hrun [_ [_ Hreg]]]]].
  rewrite Hrun. cbn [snd]. rewrite skipn_length_app, filter_app, uploadsFor_no_registration.
  cbn [app].
  destruct (allAccepted sdk tr (uploadsFor (class this) options files)).
  - exact Hreg.
  - destruct Hreg as [-> _]. reflexivity.
Qed.

(** ** Runtime to deployment image *)

Lemma ownProperty_absent (obj : list (string * string)) (key : string) :
  ~ In key (map fst obj) -> AWSProvider.ownProperty obj key = None.
Proof.
  induction obj as [|[k v] rest IH]; intros Hn; cbn [AWSProvider.ownProperty]; [reflexivity|].
  cbn [map fst In] in Hn.
  destruct (String.eqb_spec k key) as [->|Hne].
  - exfalso. apply Hn. now left.
  - apply IH. intros Hin. apply Hn. now right.
Qed.

Lemma existsb_eqb_absent (key : string) (l : list string) :
  ~ In key l -> existsb (String.eqb key) l = false.
Proof.
  induction l as [|x l IH]; intros Hn; cbn [existsb]; [reflexivity|].
  cbn [In] in Hn.
  destruct (String.eqb_spec key x) as [->|Hne].
  - exfalso. apply Hn. now left.
  - apply IH. intros Hin. apply Hn. now right.
Qed.

(** A runtime name with no entry in the table and not inherited from
    [Object.prototype] gets the image of ['pytorch']. *)
Lemma getModelImage_default (r : string) :
  ~ In r recognizedRuntimes ->
  ~ In r AWSProvider.objectPrototypeKeys ->
  AWSProvider.getModelImage r = AWSProvider.getModelImage "pytorch".
Proof.
  intros Hr Hp. unfold AWSProvider.getModelImage at 1, AWSProvider.getProperty.
  rewrite (ownProperty_absent AWSProvider.runtimeMap r Hr).
  rewrite (existsb_eqb_absent r _ Hp). reflexivity.
Qed.

Example getModelImage_pytorch :
  AWSProvider.getModelImage "pytorch" =
    Some (OwnString
      "763104351884.dkr.ecr.us-east-1.amazonaws.com/pytorch-inference:1.8.1-cpu-py36-ubuntu18.04").
Proof. reflexivity. Qed.

(** A name found on [Object.prototype] is truthy in the table lookup and is
    returned as it is. *)
Example getModelImage_inherited :
  AWSProvider.getModelImage "constructor" = Some (Inherited "constructor").
Proof. reflexivity. Qed.

(** C9 (as stated) fails on the code: on Azure the runtime name ['onnx'] is
    passed to [models.createOrUpdate] as the framework, not replaced by
    ['pytorch']. *)
Lemma runtime_default_counterexample :
  ~ claimedRuntimeDefault sampleRuntime azureProvider (modelOptions (Some "onnx"))
      [weightsFile] sdkAccepting.
Proof.
  intros H.
  specialize (H "onnx"
    (ml_models_createOrUpdate "dsar-resource-group" "test-model"
       (Some "https://account.blob.core.windows.net/model-artifacts/test-model/model.pth")
       "onnx" "1.0")
    eq_refl).
  assert (Hn : ~ In "onnx" recognizedRuntimes).
  { cbn. intros [F|[F|[F|[]]]]; discriminate F. }
  specialize (H Hn (or_introl eq_refl)).
  discriminate H.
Qed.

(** C9 (amended).  For a [deployModel] call whose options carry a runtime
    name [r], every registration call it issues carries: on AWS, the image of
    ['pytorch'] when [r] has no entry in the runtime table and is not a
    property name inherited from [Object.prototype]; on Azure, [r] itself as
    the framework, ['pytorch'] being used only when [r] is empty. *)
Theorem deployModel_runtime_reference (rt : Runtime) (this : ProviderObj)
    (options : MLModelOptions) (files : list ModelFile) (sdk : Sdk) (tr : Trace)
    (r : string) (reg : SdkCall) :
  runtime options = Some r ->
  In reg (filter isRegistration
            (issued (invoke rt this (op_deployModel options files)) sdk tr)) ->
  (class this = AWS ->
     ~ In r recognizedRuntimes ->
     ~ In r AWSProvider.objectPrototypeKeys ->
     runtimeRef reg = pytorchReference AWS) /\
  (class this = Azure ->
     runtimeRef reg = Some (OwnString (if Js.truthy r then r else "pytorch"))).
Proof.
  intros Hr Hin. rewrite deployModel_registrations in Hin.
  destruct (allAccepted sdk tr (uploadsFor (class this) options files)); [|destruct Hin].
  destruct Hin as [<-|[]].
  split; intros Hc; rewrite Hc; cbn [registrationCall runtimeRef Image pytorchReference].
  - intros Hrec Hproto. rewrite Hr. cbn [Js.orElse].
    destruct (Js.truthy r); [|reflexivity].
    now apply getModelImage_default.
  - rewrite Hr. reflexivity.
Qed.

Lemma deployModel_runtime_reference_witness :
  runtimeRef
    (CreateModelCommand "test-model"
       (Some {| Image := AWSProvider.getModelImage "pytorch";
                ModelDataUrl := Some "s3://model-artifacts/test-model/model.pth" |})) =
    pytorchReference AWS /\
  runtimeRef
    (ml_models_createOrUpdate "dsar-resource-group" "test-model"
       (Some "https://account.blob.core.windows.net/model-artifacts/test-model/model.pth")
       "onnx" "1.0") = Some (OwnString "onnx").
Proof.
  split.
  - refine (proj1 (@deployModel_runtime_reference sampleRuntime awsProvider
                     (modelOptions (Some "onnx")) [weightsFile] sdkAccepting [] "onnx"
                     _ eq_refl (or_introl eq_refl)) eq_refl _ _).
    + cbn. intros [F|[F|[F|[]]]]; discriminate F.
    + cbn. intuition discriminate.
  - exact (proj2 (@deployModel_runtime_reference sampleRuntime azureProvider
                    (modelOptions (Some "onnx")) [weightsFile] sdkAccepting [] "onnx"
                    _ eq_refl (or_introl eq_refl)) eq_refl).
Defined.

(** ** What the provider operations throw *)

(** A [try] whose [catch] throws [new Error(..)] can only fail with a plain
    [Error]. *)
Lemma tryCatch_plainFailure {A} (body : Async A) (describe : Exception -> string)
    (sdk : Sdk) (tr : Trace) :
  plainFailure (fst (tryCatch body (fun error => throw (new_Error (describe error))) sdk tr)).
Proof.
  unfold tryCatch, throw. destruct (body sdk tr) as [[a|e] tr1]; cbn.
  - exact I.
  - now eexists.
Qed.

Lemma fmap_plainFailure {A B} (f : A -> B) (m : Async A) (sdk : Sdk) (tr : Trace) :
  plainFailure (fst (m sdk tr)) -> plainFailure (fst (fmap f m sdk tr)).
Proof.
  unfold fmap, bind, ret. destruct (m sdk tr) as [[a|e] tr1]; cbn; auto.
Qed.

Lemma invoke_plainFailure (rt : Runtime) (this : ProviderObj) (op : Operation)
    (sdk : Sdk) (tr : Trace) :
  plainFailure (fst (invoke rt this op sdk tr)).
Proof.
  unfold invoke.
  destruct (class this) eqn:Hc, op; apply fmap_plainFailure;
    try (lazymatch goal with
         | |- plainFailure (fst (?m sdk tr)) =>
             let h := eval hnf in m in
             change m with h; apply tryCatch_plainFailure
         end).
  - destruct (deployModel_run rt AWS options modelFiles sdk tr) as [out [rest [Hrun [Hp _]]]].
    cbn [deployModelOf] in Hrun. rewrite Hrun. exact Hp.
Qed.

(** C1 (the code departs from the claim).  Whatever the vendor SDK does,
    an exception thrown by any of the eight operations of either provider is
    an [Error] object created by [new Error(..)]: it is never an instance of
    [CloudProviderError], so it carries no [service] field. *)
Theorem provider_operations_throw_plain_Error (rt : Runtime) (this : ProviderObj)
    (op : Operation) (sdk : Sdk) (tr tr' : Trace) (e : Exception) :
  invoke rt this op sdk tr = (Thrown e, tr') ->
  instanceofCloudProviderError e = false /\ errName e = "Error".
Proof.
  intros H. pose proof (invoke_plainFailure rt this op sdk tr) as Hp.
  rewrite H in Hp. destruct Hp as [m ->]. split; reflexivity.
Qed.

(** The compute test of the repository, against a vendor that rejects the
    test credentials. *)
Example createComputeInstance_rejected :
  invoke sampleRuntime awsProvider (op_createComputeInstance testInstanceParams)
    (sdkRejecting authFailure) [] =
  (Thrown (new_Error
     "Failed to create compute instance: AuthFailure: AWS was not able to validate the provided access credentials"),
   [RunInstancesCommand "ami-12345" "t2.micro" None "test-instance"]).
Proof. reflexivity. Qed.

Lemma provider_operations_throw_plain_Error_witness :
  instanceofCloudProviderError
    (new_Error
       "Failed to create compute instance: AuthFailure: AWS was not able to validate the provided access credentials")
    = false /\
  errName
    (new_Error
       "Failed to create compute instance: AuthFailure: AWS was not able to validate the provided access credentials")
    = "Error".
Proof.
  exact (@provider_operations_throw_plain_Error sampleRuntime awsProvider
           (op_createComputeInstance testInstanceParams) (sdkRejecting authFailure)
           [] [RunInstancesCommand "ami-12345" "t2.micro" None "test-instance"]
           _ eq_refl).
Defined.

(** What the wrapper of [errors.ts] would have produced for the same
    failure, had the operation gone through it. *)
Example createComputeInstance_wrapped :
  wrapProviderOperation (send (RunInstancesCommand "ami-12345" "t2.micro" None "test-instance"))
    "aws" compute (sdkRejecting authFailure) [] =
  (Thrown (CloudProviderError
     "AWS compute error: AWS was not able to validate the provided access credentials"
     "aws" compute (Some authFailure)),
   [RunInstancesCommand "ami-12345" "t2.micro" None "test-instance"]).
Proof. reflexivity. Qed.

(** ** Config loader: a run *)

Example loadConfig_first_run :
  ConfigLoader.loadConfig freshLoader None (sdkWithEnv testEnvironment) [] =
    (Returned awsConfig, loadedLoader,
     [ process_env "CLOUD_PROVIDER"; process_env "CLOUD_REGION";
       process_env "AWS_ACCESS_KEY_ID"; process_env "AWS_SECRET_ACCESS_KEY" ]).
Proof. reflexivity. Qed.

Lemma loadConfig_returns_cached_witness :
  ConfigLoader.loadConfig loadedLoader None (sdkWithEnv (fun _ => None)) [] =
    (Returned awsConfig, loadedLoader, []).
Proof.
  exact (proj1 (@loadConfig_returns_cached freshLoader loadedLoader None
                  (sdkWithEnv testEnvironment) [] _ awsConfig eq_refl)
               (sdkWithEnv (fun _ => None)) []).
Defined.

Example loadConfig_explicit_provider_rereads :
  ConfigLoader.loadConfig loadedLoader (Some "azure") (sdkWithEnv testEnvironment) [] =
    (Returned azureConfigFromEnv, {| ConfigLoader.cached := Some azureConfigFromEnv |},
     [ process_env "CLOUD_REGION"; process_env "AZURE_TENANT_ID";
       process_env "AZURE_CLIENT_ID"; process_env "AZURE_CLIENT_SECRET";
       process_env "AZURE_SUBSCRIPTION_ID"; process_env "AZURE_STORAGE_CONNECTION_STRING" ]).
Proof. reflexivity. Qed.

(* ===================================================================== *)
(** * Further properties *)
(* ===================================================================== *)

(** ** Footprints of asynchronous code *)

Lemma emitsOnly_ret {A} (P : SdkCall -> Prop) (a : A) : emitsOnly P (ret a).
Proof. intros sdk tr. exists []. cbn. rewrite app_nil_r. auto. Qed.

Lemma emitsOnly_throw {A} (P : SdkCall -> Prop) (e : Exception) : emitsOnly P (@throw A e).
Proof. intros sdk tr. exists []. cbn. rewrite app_nil_r. auto. Qed.

Lemma emitsOnly_settle {A} (P : SdkCall -> Prop) (o : Outcome A) : emitsOnly P (settle o).
Proof. intros sdk tr. exists []. cbn. rewrite app_nil_r. auto. Qed.

Lemma emitsOnly_send (P : SdkCall -> Prop) (c : SdkCall) : P c -> emitsOnly P (send c).
Proof. intros Hc sdk tr. exists [c]. cbn. auto. Qed.

Lemma emitsOnly_bind {A B} (P : SdkCall -> Prop) (m : Async A) (k : A -> Async B) :
  emitsOnly P m -> (forall a, emitsOnly P (k a)) -> emitsOnly P (bind m k).
Proof.
  intros Hm Hk sdk tr. unfold bind.
  destruct (Hm sdk tr) as [r1 [H1 F1]].
  destruct (m sdk tr) as [[a|e] tr1]; cbn [snd] in H1; subst tr1.
  - destruct (Hk a sdk (tr ++ r1)%list) as [r2 [H2 F2]].
    exists (r1 ++ r2)%list. rewrite H2, app_assoc. split; [reflexivity|].
    apply Forall_app. auto.
  - exists r1. auto.
Qed.

Lemma emitsOnly_tryCatch {A} (P : SdkCall -> Prop) (body : Async A)
    (handler : Exception -> Async A) :
  emitsOnly P body -> (forall e, emitsOnly P (handler e)) -> emitsOnly P (tryCatch body handler).
Proof.
  intros Hm Hk sdk tr. unfold tryCatch.
  destruct (Hm sdk tr) as [r1 [H1 F1]].
  destruct (body sdk tr) as [[a|e] tr1]; cbn [snd] in H1; subst tr1.
  - exists r1. auto.
  - destruct (Hk e sdk (tr ++ r1)%list) as [r2 [H2 F2]].
    exists (r1 ++ r2)%list. rewrite H2, app_assoc. split; [reflexivity|].
    apply Forall_app. auto.
Qed.

Lemma emitsOnly_promiseAll {A} (P : SdkCall -> Prop) (ms : list (Async A)) :
  Forall (emitsOnly P) ms -> emitsOnly P (promiseAll ms).
Proof.
  induction 1 as [|m ms Hm _ IH]; intros sdk tr; cbn [promiseAll].
  - exists []. cbn. rewrite app_nil_r. auto.
  - destruct (Hm sdk tr) as [r1 [H1 F1]].
    destruct (m sdk tr) as [o tr1]; cbn [snd] in H1; subst tr1.
    destruct (IH sdk (tr ++ r1)%list) as [r2 [H2 F2]].
    destruct (promiseAll ms sdk (tr ++ r1)%list) as [os tr2]; cbn [snd] in H2; subst tr2.
    exists (r1 ++ r2)%list. split.
    + destruct o, os; cbn [snd]; now rewrite app_assoc.
    + apply Forall_app. auto.
Qed.

Lemma emitsOnly_fmap {A B} (P : SdkCall -> Prop) (f : A -> B) (m : Async A) :
  emitsOnly P m -> emitsOnly P (fmap f m).
Proof.
  intros Hm. unfold fmap. apply emitsOnly_bind; [exact Hm|].
  intros a. apply emitsOnly_ret.
Qed.

Lemma emitsOnly_issued {A} (P : SdkCall -> Prop) (m : Async A) (sdk : Sdk) (tr : Trace) :
  emitsOnly P m -> Forall P (issued m sdk tr).
Proof.
  intros Hm. unfold issued. destruct (Hm sdk tr) as [r [H F]].
  rewrite H, skipn_length_app. exact F.
Qed.

Ltac emits_step :=
  match goal with
  | |- emitsOnly _ (bind _ _) => apply emitsOnly_bind; [|intros ?]
  | |- emitsOnly _ (tryCatch _ _) => apply emitsOnly_tryCatch; [|intros ?]
  | |- emitsOnly _ (fmap _ _) => apply emitsOnly_fmap
  | |- emitsOnly _ (ret _) => apply emitsOnly_ret
  | |- emitsOnly _ (throw _) => apply emitsOnly_throw
  | |- emitsOnly _ (settle _) => apply emitsOnly_settle
  | |- emitsOnly _ (send _) => apply emitsOnly_send
  | |- emitsOnly _ (if ?b then _ else _) => destruct b
  | |- emitsOnly _ (match ?x with _ => _ end) => destruct x
  end.

(** ** Config loader *)

Lemma getRequiredEnv_run (sdk : Sdk) (env : string -> option string) (v : string)
    (tr : Trace) :
  envIs sdk env ->
  ConfigLoader.getRequiredEnv v sdk tr =
    (if isSet env v then Returned (valueOf env v)
     else Thrown (new_Error ("Required environment variable " ++ v ++ " is not set")),
     (tr ++ [process_env v])%list).
Proof.
  intros Henv.
  unfold ConfigLoader.getRequiredEnv, ConfigLoader.getEnv, bind, send, isSet, valueOf.
  rewrite Henv. destruct (env v) as [s|]; [destruct (Js.truthy s)|]; reflexivity.
Qed.

Ltac read_required Henv :=
  match goal with
  | |- context [ConfigLoader.getRequiredEnv ?v ?sdk ?t] =>
      rewrite (@getRequiredEnv_run sdk _ v t Henv);
      unfold firstUnset in *; cbn [find readUntilUnset negb map app] in *;
      destruct (isSet _ v) eqn:?; cbn [negb] in *; cbv beta iota
  end.

Lemma orElse_truthy (o : option string) (d : string) :
  Js.truthy d = true -> Js.truthy (Js.orElse o d) = true.
Proof.
  intros Hd. unfold Js.orElse. destruct o as [s|]; [|exact Hd].
  destruct (Js.truthy s) eqn:Hs; [exact Hs | exact Hd].
Qed.

Lemma isSet_valueOf (env : string -> option string) (v : string) :
  isSet env v = true -> Js.truthy (valueOf env v) = true.
Proof. unfold isSet, valueOf. destruct (env v); [auto | discriminate]. Qed.

(** The whole run of the environment-reading part of [loadConfig] against a
    fixed environment. *)
Lemma readFromEnvironment_run (sdk : Sdk) (env : string -> option string)
    (arg : option CloudProvider) (tr : Trace) :
  envIs sdk env ->
  let p := selectedProvider env arg in
  exists out,
    ConfigLoader.readFromEnvironment arg sdk tr =
      (out,
       (tr ++ map process_env (headerVariables arg ++
                               readUntilUnset env (requiredVariables p)))%list) /\
    if (p =? "aws") || (p =? "azure") then
      match firstUnset env (requiredVariables p) with
      | Some v =>
          out = Thrown (new_Error ("Required environment variable " ++ v ++ " is not set"))
      | None =>
          exists c, out = Returned c /\ provider c = p /\
                    region (credentials c) = Js.orElse (env "CLOUD_REGION") "us-east-1" /\
                    completeConfig c = true
      end
    else out = Thrown (new_Error ("Unsupported cloud provider: " ++ p)).
Proof.
  intros Henv p.
  unfold ConfigLoader.readFromEnvironment.
  assert (Hsel :
    forall (k : string -> Async CloudConfig),
      bind (if ConfigLoader.absent arg
            then bind (ConfigLoader.getEnv "CLOUD_PROVIDER")
                      (fun v => ret (Js.orElse v "aws"))
            else ret (Js.interp arg)) k sdk tr =
      k (if ConfigLoader.absent arg then Js.orElse (env "CLOUD_PROVIDER") "aws"
         else Js.interp arg) sdk
        (tr ++ map process_env
                 (if ConfigLoader.absent arg then ["CLOUD_PROVIDER"] else []))%list).
  { intros k. destruct (ConfigLoader.absent arg).
    - unfold bind, ConfigLoader.getEnv, send, ret. rewrite Henv. reflexivity.
    - unfold bind, ret. cbn [map]. now rewrite app_nil_r. }
  rewrite Hsel. clear Hsel.
  fold (selectedProvider env arg). fold p.
  unfold headerVariables. rewrite !map_app, !app_assoc.
  set (tr0 := (tr ++ map process_env
                       (if ConfigLoader.absent arg then ["CLOUD_PROVIDER"] else []))%list).
  unfold bind at 1. unfold ConfigLoader.getEnv at 1. unfold send at 1.
  rewrite Henv. cbn [map].
  set (tr1 := (tr0 ++ [process_env "CLOUD_REGION"])%list).
  unfold requiredVariables.
  assert (Hreg : Js.truthy (Js.orElse (env "CLOUD_REGION") "us-east-1") = true)
    by (apply orElse_truthy; reflexivity).
  destruct (p =? "aws") eqn:Haws.
  - cbn [orb]. unfold bind.
    repeat read_required Henv;
      eexists; (split; [rewrite <- ?app_assoc; reflexivity |]);
      try reflexivity.
    eexists. split; [reflexivity|]. split; [reflexivity|]. split; [reflexivity|].
    unfold completeConfig. cbn. rewrite Hreg, Haws.
    rewrite !isSet_valueOf by assumption. reflexivity.
  - destruct (p =? "azure") eqn:Hazure.
    + cbn [orb]. unfold bind.
      repeat read_required Henv;
        eexists; (split; [rewrite <- ?app_assoc; reflexivity |]);
        try reflexivity.
      eexists. split; [reflexivity|]. split; [reflexivity|]. split; [reflexivity|].
      unfold completeConfig. cbn. rewrite Hreg, Hazure.
      rewrite !isSet_valueOf by assumption. reflexivity.
    + cbn [orb readUntilUnset map]. unfold throw.
      eexists. split; [rewrite app_nil_r; reflexivity | reflexivity].
Qed.

Lemma firstUnset_supported (env : string -> option string) (p v : string) :
  firstUnset env (requiredVariables p) = Some v ->
  (p =? "aws") || (p =? "azure") = true.
Proof.
  unfold requiredVariables.
  destruct (p =? "aws"); [reflexivity|].
  destruct (p =? "azure"); [reflexivity | discriminate].
Qed.

(** X1. Against a fixed environment, when [loadConfig] has to consult it
    and a variable required by the selected provider is unset or empty,
    [loadConfig] throws [Required environment variable V is not set] for the
    first such [V] in reading order, and the loader keeps what it had. *)
Theorem loadConfig_missing_variable (this : ConfigLoader.Loader)
    (arg : option CloudProvider) (sdk : Sdk) (env : string -> option string)
    (tr : Trace) (v : string) :
  envIs sdk env ->
  consultsEnvironment this arg ->
  firstUnset env (requiredVariables (selectedProvider env arg)) = Some v ->
  exists tr',
    ConfigLoader.loadConfig this arg sdk tr =
      (Thrown (new_Error ("Required environment variable " ++ v ++ " is not set")),
       this, tr').
Proof.
  intros Henv Hc Hv.
  destruct (readFromEnvironment_run arg tr Henv) as [out [Hrun Hout]].
  cbv zeta in Hout. rewrite (firstUnset_supported _ _ Hv), Hv in Hout. subst out.
  unfold ConfigLoader.loadConfig. rewrite Hrun.
  destruct Hc as [Hc|Hc]; rewrite Hc.
  - eexists. reflexivity.
  - destruct (ConfigLoader.cached this); eexists; reflexivity.
Qed.

(** An environment in which the AWS secret is empty. *)
Lemma loadConfig_missing_variable_witness :
  exists tr',
    ConfigLoader.loadConfig freshLoader None
      (sdkWithEnv (fun v => if v =? "AWS_SECRET_ACCESS_KEY" then Some "" else testEnvironment v))
      [] =
      (Thrown (new_Error "Required environment variable AWS_SECRET_ACCESS_KEY is not set"),
       freshLoader, tr').
Proof.
  apply (@loadConfig_missing_variable freshLoader None _
           (fun v => if v =? "AWS_SECRET_ACCESS_KEY" then Some "" else testEnvironment v)
           [] "AWS_SECRET_ACCESS_KEY").
  - intros v tr. reflexivity.
  - left. reflexivity.
  - reflexivity.
Defined.

Lemma loadConfig_trace (this : ConfigLoader.Loader) (arg : option CloudProvider)
    (sdk : Sdk) (tr : Trace) :
  consultsEnvironment this arg ->
  snd (ConfigLoader.loadConfig this arg sdk tr) =
  snd (ConfigLoader.readFromEnvironment arg sdk tr).
Proof.
  intros Hc. unfold ConfigLoader.loadConfig.
  destruct Hc as [Hc|Hc]; rewrite Hc.
  - destruct (ConfigLoader.readFromEnvironment arg sdk tr) as [[c|e] t]; reflexivity.
  - destruct (ConfigLoader.cached this);
      destruct (ConfigLoader.readFromEnvironment arg sdk tr) as [[c1|e] t]; reflexivity.
Qed.

(** X2. Against a fixed environment, when [loadConfig] consults it, the
    variables it reads are exactly: [CLOUD_PROVIDER] if no provider argument
    is given, [CLOUD_REGION], then the variables required by the selected
    provider, in order, up to and including the first one that is not set.
    Nothing else is read: in particular not the credentials of the other
    provider, and not [CLOUD_PROVIDER] when a provider argument is given. *)
Theorem loadConfig_reads (this : ConfigLoader.Loader) (arg : option CloudProvider)
    (sdk : Sdk) (env : string -> option string) (tr : Trace) :
  envIs sdk env ->
  consultsEnvironment this arg ->
  issuedByLoad this arg sdk tr =
    map process_env
      (headerVariables arg ++
       readUntilUnset env (requiredVariables (selectedProvider env arg))).
Proof.
  intros Henv Hc.
  destruct (readFromEnvironment_run arg tr Henv) as [out [Hrun _]].
  unfold issuedByLoad. rewrite (loadConfig_trace sdk tr Hc), Hrun.
  apply skipn_length_app.
Qed.

Lemma loadConfig_reads_witness :
  issuedByLoad loadedLoader (Some "aws") (sdkWithEnv testEnvironment) [] =
    [ process_env "CLOUD_REGION"; process_env "AWS_ACCESS_KEY_ID";
      process_env "AWS_SECRET_ACCESS_KEY" ].
Proof.
  apply (@loadConfig_reads loadedLoader (Some "aws") (sdkWithEnv testEnvironment)
           testEnvironment []).
  - intros v tr. reflexivity.
  - right. reflexivity.
Defined.

Lemma bind_Returned_inv {A B} (m : Async A) (k : A -> Async B) (sdk : Sdk)
    (tr tr' : Trace) (b : B) :
  bind m k sdk tr = (Returned b, tr') ->
  exists a tr1, m sdk tr = (Returned a, tr1) /\ k a sdk tr1 = (Returned b, tr').
Proof.
  unfold bind. destruct (m sdk tr) as [[a|e] tr1]; [|discriminate].
  intros H. now exists a, tr1.
Qed.

Lemma getRequiredEnv_Returned (v : string) (sdk : Sdk) (tr tr' : Trace) (s : string) :
  ConfigLoader.getRequiredEnv v sdk tr = (Returned s, tr') -> Js.truthy s = true.
Proof.
  unfold ConfigLoader.getRequiredEnv, ConfigLoader.getEnv, bind, send, ret, throw.
  destruct (sdk (process_env v) tr) as [[x|]|e]; try discriminate.
  destruct (Js.truthy x) eqn:Hx; [|discriminate].
  intros H. inversion H; subst. exact Hx.
Qed.

Ltac invert_binds :=
  repeat match goal with
         | H : bind _ _ _ _ = (Returned _, _) |- _ =>
             apply bind_Returned_inv in H;
             let a := fresh "a" in
             let t := fresh "t" in
             let Ha := fresh "Ha" in
             destruct H as (a & t & Ha & H); cbv beta in H
         | H : ConfigLoader.getRequiredEnv _ _ _ = (Returned _, _) |- _ =>
             apply getRequiredEnv_Returned in H
         end.

Lemma readFromEnvironment_complete (arg : option CloudProvider) (sdk : Sdk)
    (tr tr' : Trace) (c : CloudConfig) :
  ConfigLoader.readFromEnvironment arg sdk tr = (Returned c, tr') ->
  completeConfig c = true.
Proof.
  unfold ConfigLoader.readFromEnvironment. intros H.
  apply bind_Returned_inv in H. destruct H as (sel & t0 & _ & H). cbv beta zeta in H.
  apply bind_Returned_inv in H. destruct H as (r & t1 & _ & H). cbv beta zeta in H.
  assert (Hreg : Js.truthy (Js.orElse r "us-east-1") = true)
    by (apply orElse_truthy; reflexivity).
  destruct (Js.toLowerCase sel =? "aws") eqn:Haws.
  - invert_binds. unfold ret in H. inversion H; subst.
    unfold completeConfig. cbn. rewrite Hreg, Haws.
    repeat match goal with Ht : Js.truthy _ = true |- _ => rewrite Ht; clear Ht end.
    reflexivity.
  - destruct (Js.toLowerCase sel =? "azure") eqn:Hazure; [|discriminate].
    invert_binds. unfold ret in H. inversion H; subst.
    unfold completeConfig. cbn. rewrite Hreg, Hazure.
    repeat match goal with Ht : Js.truthy _ = true |- _ => rewrite Ht; clear Ht end.
    reflexivity.
Qed.

Lemma loadConfig_complete (this this' : ConfigLoader.Loader)
    (arg : option CloudProvider) (sdk : Sdk) (tr tr' : Trace) (c : CloudConfig) :
  cacheComplete this ->
  ConfigLoader.loadConfig this arg sdk tr = (Returned c, this', tr') ->
  completeConfig c = true /\ ConfigLoader.cached this' = Some c.
Proof.
  unfold cacheComplete, ConfigLoader.loadConfig. intros Hc H.
  destruct (ConfigLoader.cached this) as [c0|] eqn:Hcached.
  - destruct (ConfigLoader.absent arg).
    + inversion H; subst. auto.
    + destruct (ConfigLoader.readFromEnvironment arg sdk tr) as [[c1|e] t1] eqn:Hr;
        inversion H; subst.
      pose proof (@readFromEnvironment_complete _ _ _ _ _ Hr) as Hk. auto.
  - destruct (ConfigLoader.readFromEnvironment arg sdk tr) as [[c1|e] t1] eqn:Hr;
      inversion H; subst.
    pose proof (@readFromEnvironment_complete _ _ _ _ _ Hr) as Hk. auto.
Qed.

(** X3. Whatever the environment answers, a configuration returned by
    [loadConfig] (from a loader that holds nothing or a complete
    configuration) is complete: its provider is ['aws'] or ['azure'] in lower
    case, exactly the matching credential block is present, and neither the
    region nor any credential field is empty; the loader then holds it. *)
Theorem loadConfig_returns_complete (this this' : ConfigLoader.Loader)
    (arg : option CloudProvider) (sdk : Sdk) (tr tr' : Trace) (c : CloudConfig) :
  cacheComplete this ->
  ConfigLoader.loadConfig this arg sdk tr = (Returned c, this', tr') ->
  completeConfig c = true /\ cacheComplete this' /\ ConfigLoader.cached this' = Some c.
Proof.
  intros Hc H. destruct (@loadConfig_complete _ _ _ _ _ _ _ Hc H) as [Hk Hs].
  split; [exact Hk|]. split; [|exact Hs].
  unfold cacheComplete. rewrite Hs. exact Hk.
Qed.

Lemma loadConfig_returns_complete_witness :
  completeConfig azureConfigFromEnv = true /\
  cacheComplete {| ConfigLoader.cached := Some azureConfigFromEnv |} /\
  ConfigLoader.cached {| ConfigLoader.cached := Some azureConfigFromEnv |} =
    Some azureConfigFromEnv.
Proof.
  apply (@loadConfig_returns_complete loadedLoader
           {| ConfigLoader.cached := Some azureConfigFromEnv |} (Some "AZURE")
           (sdkWithEnv testEnvironment) []
           [ process_env "CLOUD_REGION"; process_env "AZURE_TENANT_ID";
             process_env "AZURE_CLIENT_ID"; process_env "AZURE_CLIENT_SECRET";
             process_env "AZURE_SUBSCRIPTION_ID";
             process_env "AZURE_STORAGE_CONNECTION_STRING" ]
           azureConfigFromEnv).
  - reflexivity.
  - reflexivity.
Defined.

(** A complete configuration is accepted by an empty factory. *)
Lemma getProvider_complete (newClients : ProviderClass -> CloudConfig -> Outcome unit)
    (c : CloudConfig) (st : CloudProviderFactory.Store) :
  completeConfig c = true ->
  CloudProviderFactory.currentProvider st = None ->
  isThrown (newClients (classFor (provider c)) c) = false ->
  CloudProviderFactory.getProvider newClients c st =
    (Returned {| address := CloudProviderFactory.nextAddress st;
                 class := classFor (provider c);
                 config := c |},
     {| CloudProviderFactory.currentProvider :=
          Some {| address := CloudProviderFactory.nextAddress st;
                  class := classFor (provider c);
                  config := c |};
        CloudProviderFactory.nextAddress := S (CloudProviderFactory.nextAddress st) |}).
Proof.
  unfold completeConfig, classFor, CloudProviderFactory.getProvider,
    CloudProviderFactory.new_AWSProvider, CloudProviderFactory.new_AzureProvider,
    CloudProviderFactory.setCurrent.
  intros Hc Hempty Hn. rewrite Hempty.
  apply andb_true_iff in Hc. destruct Hc as [_ Hc].
  destruct (aws (credentials c)) as [a|], (azure (credentials c)) as [z|];
    try discriminate.
  - repeat (apply andb_true_iff in Hc; destruct Hc as [Hc ?]).
    rewrite Hc in *. destruct (newClients AWS c); [reflexivity | discriminate].
  - repeat (apply andb_true_iff in Hc; destruct Hc as [Hc ?]).
    destruct (String.eqb_spec (provider c) "azure") as [Hp|]; [|discriminate].
    rewrite Hp in *. cbn in Hn |- *.
    destruct (newClients Azure c); [reflexivity | discriminate].
Qed.

(** X4. What [loadConfig] returns, the factory accepts: with the cache of
    the factory cleared and vendor client constructors that accept the
    configuration, [getProvider] never answers ['credentials not provided'] or
    ['Unsupported cloud provider'] to a loaded configuration, but returns a new
    instance of the class of the loaded provider holding that configuration. *)
Theorem loadConfig_then_getProvider
    (newClients : ProviderClass -> CloudConfig -> Outcome unit)
    (this this' : ConfigLoader.Loader) (arg : option CloudProvider)
    (sdk : Sdk) (tr tr' : Trace) (c : CloudConfig) (st : CloudProviderFactory.Store) :
  cacheComplete this ->
  ConfigLoader.loadConfig this arg sdk tr = (Returned c, this', tr') ->
  isThrown (newClients (classFor (provider c)) c) = false ->
  exists p st',
    CloudProviderFactory.getProvider newClients c (CloudProviderFactory.clearProvider st) =
      (Returned p, st') /\
    getConfig p = c /\
    class p = classFor (provider c) /\
    address p = CloudProviderFactory.nextAddress st /\
    CloudProviderFactory.currentProvider st' = Some p.
Proof.
  intros Hc Hload Hn.
  destruct (@loadConfig_complete _ _ _ _ _ _ _ Hc Hload) as [Hk _].
  eexists. eexists. split.
  - apply getProvider_complete; [exact Hk | reflexivity | exact Hn].
  - repeat split.
Qed.

Lemma loadConfig_then_getProvider_witness :
  exists p st',
    CloudProviderFactory.getProvider clientsAccept azureConfigFromEnv
      (CloudProviderFactory.clearProvider storeWithAws) = (Returned p, st') /\
    getConfig p = azureConfigFromEnv /\
    class p = classFor (provider azureConfigFromEnv) /\
    address p = CloudProviderFactory.nextAddress storeWithAws /\
    CloudProviderFactory.currentProvider st' = Some p.
Proof.
  apply (@loadConfig_then_getProvider clientsAccept loadedLoader
           {| ConfigLoader.cached := Some azureConfigFromEnv |} (Some "azure")
           (sdkWithEnv testEnvironment) []
           [ process_env "CLOUD_REGION"; process_env "AZURE_TENANT_ID";
             process_env "AZURE_CLIENT_ID"; process_env "AZURE_CLIENT_SECRET";
             process_env "AZURE_SUBSCRIPTION_ID";
             process_env "AZURE_STORAGE_CONNECTION_STRING" ]
           azureConfigFromEnv storeWithAws).
  - reflexivity.
  - reflexivity.
  - reflexivity.
Defined.

Lemma lowerAscii_idempotent (c : ascii) :
  Js.lowerAscii (Js.lowerAscii c) = Js.lowerAscii c.
Proof. destruct c as [[] [] [] [] [] [] [] []]; reflexivity. Qed.

Lemma toLowerCase_idempotent (s : string) :
  Js.toLowerCase (Js.toLowerCase s) = Js.toLowerCase s.
Proof.
  unfold Js.toLowerCase. induction s as [|c s IH]; cbn [Js.mapString]; [reflexivity|].
  now rewrite lowerAscii_idempotent, IH.
Qed.

Lemma truthy_toLowerCase (s : string) : Js.truthy (Js.toLowerCase s) = Js.truthy s.
Proof. destruct s; reflexivity. Qed.

(** X5. The provider argument of [loadConfig] is case-insensitive: a call
    with a provider name behaves exactly (result, loader, reads) as the call
    with the same name in lower case, whatever the environment answers. *)
Theorem loadConfig_provider_case_insensitive (this : ConfigLoader.Loader)
    (q : CloudProvider) (sdk : Sdk) (tr : Trace) :
  ConfigLoader.loadConfig this (Some q) sdk tr =
  ConfigLoader.loadConfig this (Some (Js.toLowerCase q)) sdk tr.
Proof.
  unfold ConfigLoader.loadConfig.
  assert (Ha : ConfigLoader.absent (Some (Js.toLowerCase q)) = ConfigLoader.absent (Some q))
    by (unfold ConfigLoader.absent; now rewrite truthy_toLowerCase).
  assert (Hr : ConfigLoader.readFromEnvironment (Some (Js.toLowerCase q)) sdk tr =
               ConfigLoader.readFromEnvironment (Some q) sdk tr).
  { unfold ConfigLoader.readFromEnvironment. rewrite Ha.
    destruct (ConfigLoader.absent (Some q)); [reflexivity|].
    unfold bind at 1 8. unfold ret at 1 4. cbn [Js.interp].
    now rewrite toLowerCase_idempotent. }
  now rewrite Ha, Hr.
Qed.

Example loadConfig_upper_case_provider :
  ConfigLoader.loadConfig freshLoader (Some "AWS") (sdkWithEnv testEnvironment) [] =
    (Returned awsConfig, loadedLoader,
     [ process_env "CLOUD_REGION"; process_env "AWS_ACCESS_KEY_ID";
       process_env "AWS_SECRET_ACCESS_KEY" ]).
Proof. reflexivity. Qed.

Lemma readFromEnvironment_emits (arg : option CloudProvider) :
  emitsOnly isKnownRead (ConfigLoader.readFromEnvironment arg).
Proof.
  unfold ConfigLoader.readFromEnvironment, ConfigLoader.getRequiredEnv, ConfigLoader.getEnv.
  repeat emits_step; cbn; tauto.
Qed.

Lemma knownVariables_assigned :
  forallb (fun v => existsb (assigns v) (lines generateEnvExample)) knownVariables = true.
Proof. vm_compute. reflexivity. Qed.

(** X6. Whatever its arguments, its cache and the environment, [loadConfig]
    issues nothing but reads of [process.env] (no vendor call), and every
    variable it reads has an assignment line [NAME=value] in the text
    produced by [generateEnvExample]. *)
Theorem loadConfig_reads_documented_variables (this : ConfigLoader.Loader)
    (arg : option CloudProvider) (sdk : Sdk) (tr : Trace) (c : SdkCall) :
  In c (issuedByLoad this arg sdk tr) ->
  exists v, c = process_env v /\
            existsb (assigns v) (lines generateEnvExample) = true.
Proof.
  unfold issuedByLoad, ConfigLoader.loadConfig. intros Hin.
  assert (Hk : isKnownRead c).
  { destruct (readFromEnvironment_emits arg sdk tr) as [rest [Hs Hf]].
    rewrite Forall_forall in Hf. apply Hf.
    destruct (ConfigLoader.cached this) as [c0|];
      [destruct (ConfigLoader.absent arg)|].
    - cbn [snd] in Hin. rewrite skipn_all in Hin. destruct Hin.
    - destruct (ConfigLoader.readFromEnvironment arg sdk tr) as [[c1|e] t];
        cbn [snd] in *; subst t; rewrite skipn_length_app in Hin; exact Hin.
    - destruct (ConfigLoader.readFromEnvironment arg sdk tr) as [[c1|e] t];
        cbn [snd] in *; subst t; rewrite skipn_length_app in Hin; exact Hin. }
  destruct c; try contradiction.
  exists variable. split; [reflexivity|].
  pose proof knownVariables_assigned as Hall.
  rewrite forallb_forall in Hall. apply Hall. exact Hk.
Qed.

Lemma loadConfig_reads_documented_variables_witness :
  exists v, process_env "AZURE_TENANT_ID" = process_env v /\
            existsb (assigns v) (lines generateEnvExample) = true.
Proof.
  apply (@loadConfig_reads_documented_variables loadedLoader (Some "azure")
           (sdkWithEnv testEnvironment) [] (process_env "AZURE_TENANT_ID")).
  right. left. reflexivity.
Defined.

(** ** Provider factory *)

(** X7. When [getProvider] throws, the cache was empty and is still empty
    afterwards, so the next call starts afresh; and either the factory is
    exactly as before (unsupported provider value, or credential block
    missing: the factory's own check comes before [new]), or the exception is
    the one thrown by the vendor client constructors. *)
Theorem getProvider_failure_leaves_cache_empty
    (newClients : ProviderClass -> CloudConfig -> Outcome unit)
    (config : CloudConfig) (st st' : CloudProviderFactory.Store) (e : Exception) :
  CloudProviderFactory.getProvider newClients config st = (Thrown e, st') ->
  CloudProviderFactory.currentProvider st = None /\
  CloudProviderFactory.currentProvider st' = None /\
  (st' = st \/ exists cls, newClients cls config = Thrown e).
Proof.
  unfold CloudProviderFactory.getProvider, CloudProviderFactory.new_AWSProvider,
    CloudProviderFactory.new_AzureProvider.
  destruct (CloudProviderFactory.currentProvider st) as [p|] eqn:Hc; [discriminate|].
  destruct (provider config =? "aws").
  - destruct (aws (credentials config)).
    + destruct (newClients AWS config) as [u|e0] eqn:Hn; [discriminate|].
      intros H. inversion H; subst. cbn. eauto.
    + intros H. inversion H; subst. auto.
  - destruct (provider config =? "azure").
    + destruct (azure (credentials config)).
      * destruct (newClients Azure config) as [u|e0] eqn:Hn; [discriminate|].
        intros H. inversion H; subst. cbn. eauto.
      * intros H. inversion H; subst. auto.
    + intros H. inversion H; subst. auto.
Qed.

(** A configuration that names AWS but carries no AWS credential block. *)
Lemma getProvider_failure_leaves_cache_empty_witness :
  CloudProviderFactory.currentProvider emptyStore = None /\
  CloudProviderFactory.currentProvider emptyStore = None /\
  (emptyStore = emptyStore \/
   exists cls,
     clientsAccept cls {| provider := "aws"; credentials := credentials azureConfig |} =
       Thrown (new_Error "AWS credentials not provided")).
Proof.
  apply (@getProvider_failure_leaves_cache_empty clientsAccept
           {| provider := "aws"; credentials := credentials azureConfig |}
           emptyStore emptyStore (new_Error "AWS credentials not provided")).
  reflexivity.
Defined.

(** X8. The factory keeps its store well formed (the cached object was
    handed out by the allocator), and an instance obtained after
    [clearProvider] is a different object from the one cached before: the
    cache is not merely refilled with the evicted instance. *)
Theorem clearProvider_then_getProvider_new_object
    (newClients : ProviderClass -> CloudConfig -> Outcome unit)
    (config : CloudConfig) (st st' : CloudProviderFactory.Store) (old p : ProviderObj) :
  storeOk st ->
  CloudProviderFactory.currentProvider st = Some old ->
  CloudProviderFactory.getProvider newClients config (CloudProviderFactory.clearProvider st) =
    (Returned p, st') ->
  address p <> address old /\ p <> old /\ storeOk st'.
Proof.
  unfold storeOk, CloudProviderFactory.getProvider, CloudProviderFactory.clearProvider,
    CloudProviderFactory.new_AWSProvider, CloudProviderFactory.new_AzureProvider,
    CloudProviderFactory.setCurrent.
  cbn [CloudProviderFactory.currentProvider CloudProviderFactory.nextAddress].
  intros Hok Hold H. rewrite Hold in Hok.
  assert (Hgoal : address p = CloudProviderFactory.nextAddress st /\
                  CloudProviderFactory.currentProvider st' = Some p /\
                  CloudProviderFactory.nextAddress st' =
                    S (CloudProviderFactory.nextAddress st)).
  { destruct (provider config =? "aws").
    - destruct (aws (credentials config)); [|discriminate].
      destruct (newClients AWS config); [|discriminate].
      inversion H; subst. cbn. auto.
    - destruct (provider config =? "azure"); [|discriminate].
      destruct (azure (credentials config)); [|discriminate].
      destruct (newClients Azure config); [|discriminate].
      inversion H; subst. cbn. auto. }
  destruct Hgoal as [Ha [Hc Hn]].
  split; [lia|]. split.
  - intros ->. lia.
  - rewrite Hc, Hn, Ha. lia.
Qed.

Lemma clearProvider_then_getProvider_new_object_witness :
  address {| address := 1; class := AWS; config := awsConfig |} <> address awsInstance0 /\
  {| address := 1; class := AWS; config := awsConfig |} <> awsInstance0 /\
  storeOk {| CloudProviderFactory.currentProvider :=
               Some {| address := 1; class := AWS; config := awsConfig |};
             CloudProviderFactory.nextAddress := 2 |}.
Proof.
  apply (@clearProvider_then_getProvider_new_object clientsAccept awsConfig storeWithAws
           _ awsInstance0 _).
  - unfold storeOk. cbn. lia.
  - reflexivity.
  - reflexivity.
Defined.

(** The invariant holds initially and is kept by every factory operation. *)
Lemma storeOk_invariant (newClients : ProviderClass -> CloudConfig -> Outcome unit)
    (config : CloudConfig) (st : CloudProviderFactory.Store) :
  storeOk emptyStore /\
  (storeOk st -> storeOk (CloudProviderFactory.clearProvider st)) /\
  (storeOk st -> storeOk (snd (CloudProviderFactory.getProvider newClients config st))).
Proof.
  split; [exact I|]. split; [intros _; exact I|].
  unfold storeOk, CloudProviderFactory.getProvider, CloudProviderFactory.new_AWSProvider,
    CloudProviderFactory.new_AzureProvider, CloudProviderFactory.setCurrent.
  destruct (CloudProviderFactory.currentProvider st) as [p|] eqn:Hc.
  - cbn [snd]. now rewrite Hc.
  - intros _.
    destruct (provider config =? "aws");
      [destruct (aws (credentials config)); [destruct (newClients AWS config)|]
      |destruct (provider config =? "azure");
        [destruct (azure (credentials config)); [destruct (newClients Azure config)|]|]];
      cbn; rewrite ?Hc; auto.
Qed.

(** ** Error wrapper *)

(** X9. Wrappers nest harmlessly: wrapping an already wrapped operation, even
    with another provider and service, behaves exactly as the inner wrapper
    alone; the tag given first is kept and no error is wrapped twice. *)
Theorem wrapProviderOperation_nested {T} (operation : Async T)
    (p p' : CloudProvider) (s s' : CloudService) (sdk : Sdk) (tr : Trace) :
  wrapProviderOperation (wrapProviderOperation operation p s) p' s' sdk tr =
  wrapProviderOperation operation p s sdk tr.
Proof.
  unfold wrapProviderOperation, tryCatch at 1.
  destruct (tryCatch operation _ sdk tr) as [[v|e] tr'] eqn:H; [reflexivity|].
  assert (Hi : instanceofCloudProviderError e = true).
  { unfold tryCatch in H. destruct (operation sdk tr) as [[v|e0] t]; [discriminate|].
    destruct (instanceofCloudProviderError e0) eqn:He0;
      unfold throw in H; inversion H; subst; [exact He0 | reflexivity]. }
  now rewrite Hi.
Qed.


Example wrapped_createComputeInstance :
  wrapProviderOperation
    (invoke sampleRuntime awsProvider (op_createComputeInstance testInstanceParams))
    "aws" compute (sdkRejecting authFailure) [] =
  (Thrown (CloudProviderError
     "AWS compute error: Failed to create compute instance: AuthFailure: AWS was not able to validate the provided access credentials"
     "aws" compute
     (Some (new_Error
        "Failed to create compute instance: AuthFailure: AWS was not able to validate the provided access credentials"))),
   [RunInstancesCommand "ami-12345" "t2.micro" None "test-instance"]).
Proof. reflexivity. Qed.

(** ** Provider operations *)

Lemma Forall_emitsOnly_map {A B} (P : SdkCall -> Prop) (f : A -> Async B) (l : list A) :
  (forall x, emitsOnly P (f x)) -> Forall (emitsOnly P) (map f l).
Proof. intros H. induction l; cbn; constructor; auto. Qed.

Ltac in_footprint :=
  unfold withinFootprint, mayTouch; cbn;
  repeat split; intros; try discriminate;
  match goal with
  | H : Some _ = Some _ |- _ => inversion H; subst; auto
  end.

Lemma invoke_emits (rt : Runtime) (this : ProviderObj) (op : Operation) :
  emitsOnly (withinFootprint (class this) op) (invoke rt this op).
Proof.
  unfold invoke.
  destruct (class this), op;
    cbv beta delta
      [AWSProvider.createComputeInstance AWSProvider.getComputeInstance
       AWSProvider.terminateInstance AWSProvider.uploadFile AWSProvider.downloadFile
       AWSProvider.deleteFile AWSProvider.deployModel AWSProvider.runInference
       AzureProvider.createComputeInstance AzureProvider.getComputeInstance
       AzureProvider.terminateInstance AzureProvider.uploadFile AzureProvider.downloadFile
       AzureProvider.deleteFile AzureProvider.deployModel AzureProvider.runInference] zeta;
    repeat first
      [ apply emitsOnly_promiseAll; apply Forall_emitsOnly_map; intros ?
      | emits_step ];
    in_footprint.
Qed.

(** X11. Every call an operation issues stays within its footprint: it goes
    to the SDK of the provider's own vendor (or to the clock, or to [fetch]
    for Azure inference), never to the other vendor's SDK; it goes through
    the client of the operation's own service, [deployModel] alone touching
    storage as well; and no operation reads [process.env]. *)
Theorem operations_stay_within_footprint (rt : Runtime) (this : ProviderObj)
    (op : Operation) (sdk : Sdk) (tr : Trace) (c : SdkCall) :
  In c (issued (invoke rt this op) sdk tr) ->
  isEnvRead c = false /\
  (forall v, vendorOf c = Some v -> v = class this) /\
  (forall s, clientOf c = Some s -> mayTouch op s).
Proof.
  intros Hin.
  pose proof (emitsOnly_issued sdk tr (invoke_emits rt this op)) as Hf.
  rewrite Forall_forall in Hf. exact (Hf c Hin).
Qed.

Lemma operations_stay_within_footprint_witness :
  isEnvRead (ml_models_createOrUpdate "dsar-resource-group" "test-model"
               (Some "https://account.blob.core.windows.net/model-artifacts/test-model/model.pth")
               "pytorch" "1.0") = false /\
  (forall v,
     vendorOf (ml_models_createOrUpdate "dsar-resource-group" "test-model"
                 (Some "https://account.blob.core.windows.net/model-artifacts/test-model/model.pth")
                 "pytorch" "1.0") = Some v -> v = class azureProvider) /\
  (forall s,
     clientOf (ml_models_createOrUpdate "dsar-resource-group" "test-model"
                 (Some "https://account.blob.core.windows.net/model-artifacts/test-model/model.pth")
                 "pytorch" "1.0") = Some s ->
     mayTouch (op_deployModel (modelOptions None) [weightsFile]) s).
Proof.
  apply (@operations_stay_within_footprint sampleRuntime azureProvider
           (op_deployModel (modelOptions None) [weightsFile]) sdkAccepting []).
  right. left. reflexivity.
Defined.




Example azure_create_stops_at_first_rejection :
  invoke sampleRuntime azureProvider (op_createComputeInstance testInstanceParams)
    (sdkRejecting authFailure) [] =
  (Thrown (new_Error
     "Failed to create compute instance: AuthFailure: AWS was not able to validate the provided access credentials"),
   [ vm_beginCreateOrUpdate "dsar-resource-group" "test-instance" "eastus"
       "t2.micro" "ami-12345" None ]).
Proof. reflexivity. Qed.

(** X13. AWS compute, when the vendor answers: [createComputeInstance]
    returns the mapping of the first instance of the answer and ignores the
    others; an answer without instances makes it throw, the inner error being
    caught and re-wrapped by the same [try]:
    ['Failed to create compute instance: Error: Failed to create EC2 instance'].
    [getComputeInstance] returns the mapping of the first instance of the first
    reservation, and throws
    ['Failed to get compute instance: Error: Instance <id> not found'] when
    there is none. *)
Theorem aws_compute_answers (rt : Runtime) (options : ComputeOptions)
    (instanceId : string) (sdk : Sdk) (tr : Trace) :
  match sdk (RunInstancesCommand (imageId options) (instanceType options)
               (encodeUserData rt (userData options)) (name options)) tr with
  | Returned (Some (first :: _)) =>
      fst (AWSProvider.createComputeInstance rt options sdk tr) =
        Returned (AWSProvider.mapEC2InstanceToComputeInstance first)
  | Returned _ =>
      fst (AWSProvider.createComputeInstance rt options sdk tr) =
        Thrown (new_Error
          "Failed to create compute instance: Error: Failed to create EC2 instance")
  | Thrown _ => True
  end /\
  match sdk (DescribeInstancesCommand (Some [instanceId])) tr with
  | Returned (Some ({| Instances := Some (first :: _) |} :: _)) =>
      fst (AWSProvider.getComputeInstance instanceId sdk tr) =
        Returned (AWSProvider.mapEC2InstanceToComputeInstance first)
  | Returned _ =>
      fst (AWSProvider.getComputeInstance instanceId sdk tr) =
        Thrown (new_Error
          ("Failed to get compute instance: Error: Instance " ++ instanceId ++ " not found"))
  | Thrown _ => True
  end.
Proof.
  unfold AWSProvider.createComputeInstance, AWSProvider.getComputeInstance,
    AWSProvider.firstInstance, tryCatch, bind, send, ret, throw.
  split.
  - destruct (sdk _ tr) as [[[|first rest]|]|e]; reflexivity || exact I.
  - destruct (sdk _ tr) as [[[|[[[|first more]|]] rest]|]|e]; reflexivity || exact I.
Qed.

Example getComputeInstance_not_found :
  AWSProvider.getComputeInstance "i-0abc" sdkAccepting [] =
    (Thrown (new_Error "Failed to get compute instance: Error: Instance i-0abc not found"),
     [DescribeInstancesCommand (Some ["i-0abc"])]).
Proof. reflexivity. Qed.

(** X14. When [runInference] returns, on either provider, it has read the
    clock exactly twice, before its first vendor call and after its last one;
    the reported latency is the second reading minus the first, and the
    reported model version is the requested version, or ['latest'] when none
    (or an empty one) was requested. *)
Theorem runInference_latency (rt : Runtime) (this : ProviderObj)
    (options : MLModelOptions) (input : Json) (sdk : Sdk) (tr tr' : Trace)
    (r : MLInferenceResult) :
  invoke rt this (op_runInference options input) sdk tr = (Returned (res_inference r), tr') ->
  exists (t1 t2 : Z) (mid : list SdkCall),
    tr' = (tr ++ Date_now :: mid ++ [Date_now])%list /\
    forallb (fun c => negb (isClockRead c)) mid = true /\
    sdk Date_now tr = Returned t1 /\
    sdk Date_now (tr ++ Date_now :: mid)%list = Returned t2 /\
    latency r = (t2 - t1)%Z /\
    modelVersion r = Js.orElse (version options) "latest".
Proof.
  unfold invoke. destruct (class this).
  - unfold AWSProvider.runInference, fmap, tryCatch, bind, send, ret, throw, settle.
    destruct (sdk Date_now tr) as [t1|] eqn:E1; [|discriminate].
    destruct (sdk (InvokeEndpointCommand _ _) _) as [response|] eqn:E2; [|discriminate].
    rewrite <- ?app_assoc. cbn [app].
    match goal with
    | |- context [sdk Date_now ?t] =>
        destruct (sdk Date_now t) as [t2|] eqn:E3; [|discriminate]
    end.
    destruct response as [body|]; [|discriminate].
    destruct (JSON_parse rt body); [|discriminate].
    intros H. inversion H; subst.
    exists t1, t2, [InvokeEndpointCommand (modelId options) (JSON_stringify rt input)].
    rewrite <- ?app_assoc. cbn [app]. repeat split; auto.
  - unfold AzureProvider.runInference, fmap, tryCatch, bind, send, ret, throw, settle.
    destruct (sdk Date_now tr) as [t1|] eqn:E1; [|discriminate].
    destruct (sdk (ml_onlineEndpoints_get _ _) _) as [endpoint|] eqn:E2; [|discriminate].
    destruct (sdk (fetch_POST _ _ _ _) _) as [response|] eqn:E3; [|discriminate].
    destruct (ok response); cbn [negb]; [|discriminate].
    destruct (json response); [|discriminate].
    rewrite <- ?app_assoc. cbn [app].
    match goal with
    | |- context [sdk Date_now ?t] =>
        destruct (sdk Date_now t) as [t2|] eqn:E4; [|discriminate]
    end.
    intros H. inversion H; subst.
    exists t1, t2,
      [ ml_onlineEndpoints_get AzureProvider.resourceGroup (modelId options ++ "-endpoint");
        fetch_POST (scoringUri endpoint) ("Bearer " ++ Js.interp (authToken endpoint))
          "application/json" (JSON_stringify rt input) ].
    rewrite <- ?app_assoc. cbn [app]. repeat split; auto.
Qed.

Lemma runInference_latency_witness :
  exists (t1 t2 : Z) (mid : list SdkCall),
    [ Date_now;
      ml_onlineEndpoints_get "dsar-resource-group" "test-model-endpoint";
      fetch_POST None "Bearer undefined" "application/json" "null";
      Date_now ] = ([] ++ Date_now :: mid ++ [Date_now])%list /\
    forallb (fun c => negb (isClockRead c)) mid = true /\
    sdkAccepting Date_now [] = Returned t1 /\
    sdkAccepting Date_now ([] ++ Date_now :: mid)%list = Returned t2 /\
    latency {| predictions := JNull; latency := 0; modelVersion := "latest" |} = (t2 - t1)%Z /\
    modelVersion {| predictions := JNull; latency := 0; modelVersion := "latest" |} =
      Js.orElse (version (modelOptions None)) "latest".
Proof.
  apply (@runInference_latency sampleRuntime azureProvider (modelOptions None) JNull
           sdkAccepting []).
  reflexivity.
Defined.

(** X15. Azure [runInference], when the scoring endpoint answers with a
    non-OK HTTP status: it throws
    ['Failed to run inference: Error: Inference failed with status <n>'],
    without reading the body of the answer and without reading the clock a
    second time; the calls issued are the first clock reading, the endpoint
    lookup and the POST. *)
Theorem azure_runInference_http_failure (rt : Runtime) (options : MLModelOptions)
    (input : Json) (sdk : Sdk) (tr : Trace) (t1 : Z) (endpoint : OnlineEndpoint)
    (response : FetchResponse) :
  let lookup :=
    ml_onlineEndpoints_get AzureProvider.resourceGroup (modelId options ++ "-endpoint") in
  let post :=
    fetch_POST (scoringUri endpoint) ("Bearer " ++ Js.interp (authToken endpoint))
      "application/json" (JSON_stringify rt input) in
  sdk Date_now tr = Returned t1 ->
  sdk lookup (tr ++ [Date_now])%list = Returned endpoint ->
  sdk post (tr ++ [Date_now; lookup])%list = Returned response ->
  ok response = false ->
  AzureProvider.runInference rt options input sdk tr =
    (Thrown (new_Error ("Failed to run inference: Error: Inference failed with status " ++
                        Js.ofNat (http_status response))),
     (tr ++ [Date_now; lookup; post])%list).
Proof.
  intros lookup post E1 E2 E3 Hok.
  unfold AzureProvider.runInference, tryCatch, bind, send, throw.
  rewrite E1. fold lookup. rewrite E2. fold post.
  rewrite <- (app_assoc tr [Date_now] [lookup]). cbn [app]. rewrite E3, Hok.
  cbn [negb]. rewrite <- app_assoc. reflexivity.
Qed.

Lemma azure_runInference_http_failure_witness :
  AzureProvider.runInference sampleRuntime (modelOptions None) JNull sdkScoringUnavailable [] =
    (Thrown (new_Error "Failed to run inference: Error: Inference failed with status 503"),
     [ Date_now;
       ml_onlineEndpoints_get "dsar-resource-group" "test-model-endpoint";
       fetch_POST (Some "https://score.example/score") "Bearer token"
         "application/json" "null" ]).
Proof.
  apply (@azure_runInference_http_failure sampleRuntime (modelOptions None) JNull
           sdkScoringUnavailable [] 0%Z
           {| scoringUri := Some "https://score.example/score"; authToken := Some "token" |}
           {| ok := false; http_status := 503; json := Returned JNull |});
    reflexivity.
Defined.




Ltac addresses_endpoint :=
  unfold addressesEndpointOf; cbn; intros; try discriminate;
  match goal with
  | H : Some _ = Some _ |- _ => inversion H; subst; reflexivity
  end.

Lemma azure_deployModel_endpoint (rt : Runtime) (options : MLModelOptions)
    (files : list ModelFile) :
  emitsOnly (addressesEndpointOf (modelId options))
    (AzureProvider.deployModel rt options files).
Proof.
  unfold AzureProvider.deployModel, AzureProvider.uploadFile.
  repeat first
    [ apply emitsOnly_promiseAll; apply Forall_emitsOnly_map; intros ?
    | emits_step ];
    addresses_endpoint.
Qed.

Lemma azure_runInference_endpoint (rt : Runtime) (options : MLModelOptions) (input : Json) :
  emitsOnly (addressesEndpointOf (modelId options))
    (AzureProvider.runInference rt options input).
Proof.
  unfold AzureProvider.runInference.
  repeat emits_step; addresses_endpoint.
Qed.

(** X17. On Azure, [deployModel] and [runInference] agree on the endpoint of
    a model: every endpoint call either of them issues addresses the online
    endpoint ['<modelId>-endpoint'] of the provider's resource group, so
    inference on a model id looks up the very endpoint its deployment
    created. *)
Theorem azure_endpoint_names_agree (rt : Runtime)
    (deployed : MLModelOptions) (files : list ModelFile)
    (queried : MLModelOptions) (input : Json)
    (sdk1 sdk2 : Sdk) (tr1 tr2 : Trace) (c1 c2 : SdkCall) (e1 e2 : string * string) :
  modelId deployed = modelId queried ->
  In c1 (issued (AzureProvider.deployModel rt deployed files) sdk1 tr1) ->
  In c2 (issued (AzureProvider.runInference rt queried input) sdk2 tr2) ->
  endpointOf c1 = Some e1 ->
  endpointOf c2 = Some e2 ->
  e1 = e2 /\ e1 = ("dsar-resource-group", modelId deployed ++ "-endpoint").
Proof.
  intros Hm H1 H2 E1 E2.
  pose proof (emitsOnly_issued sdk1 tr1 (azure_deployModel_endpoint rt deployed files)) as F1.
  pose proof (emitsOnly_issued sdk2 tr2 (azure_runInference_endpoint rt queried input)) as F2.
  rewrite Forall_forall in F1, F2.
  rewrite (F1 c1 H1 e1 E1), (F2 c2 H2 e2 E2), Hm. split; reflexivity.
Qed.

Lemma azure_endpoint_names_agree_witness :
  ("dsar-resource-group", "test-model-endpoint") =
  ("dsar-resource-group", "test-model-endpoint") /\
  ("dsar-resource-group", "test-model-endpoint") =
  ("dsar-resource-group", modelId (modelOptions (Some "pytorch")) ++ "-endpoint").
Proof.
  apply (@azure_endpoint_names_agree sampleRuntime
           (modelOptions (Some "pytorch")) [weightsFile] (modelOptions None) JNull
           sdkAccepting sdkAccepting [] []
           (ml_onlineEndpoints_beginCreateOrUpdate_pollUntilDone "dsar-resource-group"
              "test-model-endpoint" "key" None)
           (ml_onlineEndpoints_get "dsar-resource-group" "test-model-endpoint")).
  - reflexivity.
  - right. right. left. reflexivity.
  - right. left. reflexivity.
  - reflexivity.
  - reflexivity.
Defined.

Lemma find_first_match {A} (f : A -> bool) (pre post : list A) (x : A) :
  forallb (fun y => negb (f y)) pre = true -> f x = true ->
  find f (pre ++ x :: post) = Some x.
Proof.
  intros Hpre Hx. induction pre as [|y pre IH]; cbn [app find].
  - now rewrite Hx.
  - cbn [forallb] in Hpre. apply andb_true_iff in Hpre. destruct Hpre as [Hy Hpre].
    destruct (f y); [discriminate|]. auto.
Qed.

(** X18. In an Azure instance view, the first status whose code starts with
    ['PowerState/'] decides alone: statuses of other kinds before it and all
    statuses after it, power states included, have no influence on the
    mapped status. *)
Theorem azure_first_power_state_decides (pre post : list InstanceViewStatus)
    (s : InstanceViewStatus) :
  forallb (fun x => negb (AzureProvider.isPowerState x)) pre = true ->
  AzureProvider.isPowerState s = true ->
  AzureProvider.mapAzureStatus (Some {| statuses := Some (pre ++ s :: post)%list |}) =
  AzureProvider.mapAzureStatus (Some {| statuses := Some [s] |}).
Proof.
  intros Hpre Hs. unfold AzureProvider.mapAzureStatus. cbn [statuses].
  rewrite (find_first_match _ pre post s Hpre Hs).
  cbn [find]. now rewrite Hs.
Qed.

Lemma azure_first_power_state_decides_witness :
  AzureProvider.mapAzureStatus
    (Some {| statuses :=
               Some ([ {| code := Some "ProvisioningState/succeeded" |} ] ++
                     {| code := Some "PowerState/deallocated" |} ::
                     [ {| code := Some "PowerState/running" |} ])%list |}) =
  AzureProvider.mapAzureStatus
    (Some {| statuses := Some [ {| code := Some "PowerState/deallocated" |} ] |}).
Proof.
  apply (@azure_first_power_state_decides
           [ {| code := Some "ProvisioningState/succeeded" |} ]
           [ {| code := Some "PowerState/running" |} ]
           {| code := Some "PowerState/deallocated" |});
    reflexivity.
Defined.

Lemma promiseAll_uploads_failure (rt : Runtime) (c : ProviderClass)
    (options : MLModelOptions) (files : list ModelFile) (sdk : Sdk) (tr : Trace) :
  allAccepted sdk tr (uploadsFor c options files) = false ->
  exists detail,
    fst (promiseAll
           (map (fun file => uploadFileOf rt c (artifactOptions options file) (content file))
                files) sdk tr) =
      Thrown (new_Error ("Failed to upload file: " ++ detail)).
Proof.
  revert tr. induction files as [|f files IH]; intros tr; [discriminate|].
  unfold allAccepted. cbn [map promiseAll uploadsFor acceptedEach forallb].
  rewrite uploadFile_run. unfold accepted at 1. fold (uploadsFor c options files).
  fold (allAccepted sdk (tr ++ [uploadCall c (artifactOptions options f) (content f)])%list
          (uploadsFor c options files)).
  destruct (sdk (uploadCall c (artifactOptions options f) (content f)) tr) as [r|e];
    cbn [isThrown negb andb].
  - intros Ha. destruct (IH _ Ha) as [detail Hd].
    destruct (promiseAll _ sdk _) as [o t]. cbn [fst] in Hd. subst o.
    exists detail. reflexivity.
  - intros _. destruct (promiseAll _ sdk _) as [o t].
    exists (errToString e). reflexivity.
Qed.

(** X19. When the vendor rejects one of the uploads of [deployModel], the
    two providers report it differently: on AWS the error of [uploadFile]
    escapes as it is, ['Failed to upload file: ...'] (the uploads are outside
    the [try] of [deployModel]); on Azure it is caught and wrapped again,
    ['Failed to deploy model: Error: Failed to upload file: ...']. *)
Theorem deployModel_upload_failure_message (rt : Runtime) (this : ProviderObj)
    (options : MLModelOptions) (files : list ModelFile) (sdk : Sdk) (tr : Trace) :
  allAccepted sdk tr (uploadsFor (class this) options files) = false ->
  exists detail,
    fst (invoke rt this (op_deployModel options files) sdk tr) =
      Thrown (new_Error
                (match class this with
                 | AWS => "Failed to upload file: " ++ detail
                 | Azure => "Failed to deploy model: Error: Failed to upload file: " ++ detail
                 end)).
Proof.
  intros Ha.
  destruct (promiseAll_uploads_failure rt (class this) options files sdk tr Ha)
    as [detail Hd].
  exists detail. unfold invoke.
  cbv beta delta [uploadFileOf artifactOptions] iota in Hd.
  destruct (class this).
  - unfold AWSProvider.deployModel, fmap. unfold bind at 1 2.
    destruct (promiseAll _ sdk tr) as [o t]. cbn [fst] in Hd. subst o. reflexivity.
  - unfold AzureProvider.deployModel, fmap. unfold bind at 1.
    unfold tryCatch at 1. unfold bind at 1.
    destruct (promiseAll _ sdk tr) as [o t]. cbn [fst] in Hd. subst o. reflexivity.
Qed.

Lemma deployModel_upload_failure_message_witness :
  exists detail,
    fst (invoke sampleRuntime azureProvider
           (op_deployModel (modelOptions None) [weightsFile; labelsFile])
           (sdkRejecting authFailure) []) =
      Thrown (new_Error
                (match class azureProvider with
                 | AWS => "Failed to upload file: " ++ detail
                 | Azure => "Failed to deploy model: Error: Failed to upload file: " ++ detail
                 end)).
Proof.
  apply (@deployModel_upload_failure_message sampleRuntime azureProvider
           (modelOptions None) [weightsFile; labelsFile] (sdkRejecting authFailure) []).
  reflexivity.
Defined.
